(** * gemini-image-mcp: request handling and response normalisation

    A shallow embedding of [src/index.ts]: the three tool handlers
    ([generateImage], [editImage], [describeImage]) and the
    [CallToolRequestSchema] handler that dispatches to them and turns every
    thrown value into an error-shaped result.

    The remote model, [path.dirname] and the [fs] calls are external: they
    are the fields of a [World] record, and every call to one of them is
    recorded in a trace of [Event]s, so that "the upstream is invoked with
    ..." is a statement about the trace. *)

From Stdlib Require Import String Ascii List Bool.
Import ListNotations.
Open Scope string_scope.

(* ================================================================== *)
(** * JavaScript values *)
(* ================================================================== *)

Module JS.

(** Truthiness of a string: only the empty string is falsy. *)
Definition truthy (s : string) : bool :=
  match s with
  | EmptyString => false
  | String _ _ => true
  end.

(** Truthiness of [string | undefined]. *)
Definition truthy_opt (o : option string) : bool :=
  match o with
  | Some s => truthy s
  | None => false
  end.

(** [o || d] for an optional string [o] and a string [d]. *)
Definition or_else (o : option string) (d : string) : string :=
  match o with
  | Some s => if truthy s then s else d
  | None => d
  end.

(** [x = d] in a destructuring pattern: the default is taken when the
    property is undefined. *)
Definition default {A : Type} (o : option A) (d : A) : A :=
  match o with
  | Some a => a
  | None => d
  end.

(** A thrown value: an [Error] object with its message, or anything
    else, kept as what [String(error)] gives for it. *)
Inductive Thrown : Type :=
| Error (message : string)
| NonError (rendered : string).

(** [error instanceof Error ? error.message : String(error)] *)
Definition message_of (error : Thrown) : string :=
  match error with
  | Error message => message
  | NonError rendered => rendered
  end.

(** [haystack.includes(needle)], as a proposition. *)
Definition includes (haystack needle : string) : Prop :=
  exists before after, haystack = before ++ needle ++ after.

(** ASCII lower-casing, to compare messages up to letter case. *)
Definition lower_ascii (c : ascii) : ascii :=
  let n := nat_of_ascii c in
  if Nat.leb 65 n && Nat.leb n 90 then ascii_of_nat (n + 32) else c.

Fixpoint toLowerCase (s : string) : string :=
  match s with
  | EmptyString => EmptyString
  | String c rest => String (lower_ascii c) (toLowerCase rest)
  end.

End JS.

(* ================================================================== *)
(** * Types of [index.ts] *)
(* ================================================================== *)

(** ["1:1" | "3:4" | "4:3" | "9:16" | "16:9"] *)
Inductive AspectRatio : Type :=
| AR_1_1 | AR_3_4 | AR_4_3 | AR_9_16 | AR_16_9.

Definition AspectRatio_str (a : AspectRatio) : string :=
  match a with
  | AR_1_1 => "1:1"
  | AR_3_4 => "3:4"
  | AR_4_3 => "4:3"
  | AR_9_16 => "9:16"
  | AR_16_9 => "16:9"
  end.

(** ["1K" | "2K" | "4K"] *)
Inductive ImageSize : Type :=
| Size_1K | Size_2K | Size_4K.

Definition ImageSize_str (s : ImageSize) : string :=
  match s with
  | Size_1K => "1K"
  | Size_2K => "2K"
  | Size_4K => "4K"
  end.

(** [{ data: string; mimeType: string }], an element of [images] and of
    [referenceImages]. *)
Module ImageInput.
Record t : Type := make { data : string; mimeType : string }.
End ImageInput.

Module GenerateImageParams.
Record t : Type := make {
  prompt : string;
  model : option string;
  aspectRatio : option AspectRatio;
  imageSize : option ImageSize;
  outputPath : option string;
  referenceImages : option (list ImageInput.t)
}.
End GenerateImageParams.

Module EditImageParams.
Record t : Type := make {
  prompt : string;
  images : list ImageInput.t;
  model : option string;
  imageSize : option ImageSize;
  outputPath : option string
}.
End EditImageParams.

Module DescribeImageParams.
Record t : Type := make {
  images : list ImageInput.t;
  prompt : option string;
  model : option string
}.
End DescribeImageParams.

(** [const MODELS = { PRO: ..., FLASH: ..., LEGACY: ... }] *)
Module MODELS.
Definition PRO : string := "gemini-3-pro-image-preview".
Definition FLASH : string := "gemini-2.5-flash-preview-05-20".
Definition LEGACY : string := "gemini-2.0-flash-exp".
(** [Object.values(MODELS)] *)
Definition values : list string := [PRO; FLASH; LEGACY].
End MODELS.

Definition DEFAULT_MODEL : string := MODELS.PRO.

(* ================================================================== *)
(** * The advertised tool definitions *)
(* ================================================================== *)

(** The part of [inputSchema] that constrains the request's arrays and
    required properties.  [tools] is only ever returned by the
    [ListToolsRequestSchema] handler; no handler reads it. *)
Module Schema.

Record ArrayProperty : Type := {
  minItems : option nat;
  maxItems : option nat
}.

Record Tool : Type := {
  name : string;
  arrays : list (string * ArrayProperty);
  required : list string
}.

(** Does an array of [n] items satisfy the declared bounds? *)
Definition admits (p : ArrayProperty) (n : nat) : bool :=
  match minItems p with Some lo => Nat.leb lo n | None => true end
  && match maxItems p with Some hi => Nat.leb n hi | None => true end.

Fixpoint lookup {A : Type} (key : string) (l : list (string * A)) : option A :=
  match l with
  | [] => None
  | (k, v) :: rest => if k =? key then Some v else lookup key rest
  end.

Fixpoint find_tool (n : string) (l : list Tool) : option Tool :=
  match l with
  | [] => None
  | t :: rest => if name t =? n then Some t else find_tool n rest
  end.

(** Bounds declared by tool [n] for its array property [prop]. *)
Definition array_of (l : list Tool) (n prop : string) : option ArrayProperty :=
  match find_tool n l with
  | Some t => lookup prop (arrays t)
  | None => None
  end.

End Schema.

Definition tools : list Schema.Tool :=
  [ {| Schema.name := "generate_image";
       Schema.arrays :=
         [("referenceImages",
           {| Schema.minItems := None; Schema.maxItems := Some 14 |})];
       Schema.required := ["prompt"] |};
    {| Schema.name := "edit_image";
       Schema.arrays :=
         [("images",
           {| Schema.minItems := Some 1; Schema.maxItems := Some 14 |})];
       Schema.required := ["prompt"; "images"] |};
    {| Schema.name := "describe_image";
       Schema.arrays :=
         [("images",
           {| Schema.minItems := Some 1; Schema.maxItems := None |})];
       Schema.required := ["images"] |} ].

(* ================================================================== *)
(** * What is sent upstream and what comes back *)
(* ================================================================== *)

(** A content part of the request: [{ inlineData: { mimeType, data } }]
    or [{ text }]. *)
Inductive RequestPart : Type :=
| inlineDataPart (mimeType data : string)
| textPart (text : string).

Module ImageConfig.
Record t : Type := make {
  aspectRatio : option AspectRatio;
  imageSize : ImageSize
}.
End ImageConfig.

(** [generationConfig]: [responseModalities] is always set, [imageConfig]
    only for the PRO model, the top-level [aspectRatio] only by
    [generateImage] for the other models. *)
Module GenerationConfig.
Record t : Type := make {
  responseModalities : list string;
  imageConfig : option ImageConfig.t;
  aspectRatio : option AspectRatio
}.
End GenerationConfig.

(** The response of the remote model, as far as the handlers read it. *)
Module InlineData.
Record t : Type := make { mimeType : option string; data : string }.
End InlineData.

Module Part.
Record t : Type := make {
  inlineData : option InlineData.t;
  text : option string
}.
End Part.

Module Content.
Record t : Type := make { parts : option (list Part.t) }.
End Content.

Module Candidate.
Record t : Type := make { content : option Content.t }.
End Candidate.

Module Response.
Record t : Type := make {
  candidates : option (list Candidate.t);
  (** what [response.text()] returns or throws *)
  text : JS.Thrown + string
}.
End Response.

(** The result handed back to the host. [isError] is absent on success. *)
Inductive ContentItem : Type :=
| image (data mimeType : string)
| text (text : string).

Module ToolResult.
Record t : Type := make {
  content : list ContentItem;
  isError : option bool
}.
End ToolResult.

(* ================================================================== *)
(** * External calls and the effect monad *)
(* ================================================================== *)

(** One entry per call that leaves the process. *)
Inductive Event : Type :=
| EvGenerateContent (model : string)
                    (generationConfig : option GenerationConfig.t)
                    (parts : list RequestPart)
| EvExistsSync (dir : string)
| EvMkdirSync (dir : string)
| EvWriteFileSync (path : string) (base64 : string).

(** What the outside answers.  [generateContent model cfg parts] stands
    for [genAI.getGenerativeModel({model, generationConfig: cfg})
    .generateContent(parts)] followed by [.response]; it yields a response
    or throws.  [writeFileSync path b64] stands for
    [fs.writeFileSync(path, Buffer.from(b64, "base64"))]. *)
Record World : Type := {
  generateContent :
    string -> option GenerationConfig.t -> list RequestPart ->
    JS.Thrown + Response.t;
  dirname : string -> string;
  existsSync : string -> bool;
  mkdirSync : string -> option JS.Thrown;
  writeFileSync : string -> string -> option JS.Thrown
}.

(** A computation: the calls it made, and a value or the thrown value
    that ended it. *)
Definition M (A : Type) : Type := (list Event * (JS.Thrown + A))%type.

Definition ret {A : Type} (a : A) : M A := ([], inr a).

Definition throw {A : Type} (e : JS.Thrown) : M A := ([], inl e).

Definition bind {A B : Type} (m : M A) (k : A -> M B) : M B :=
  match m with
  | (tr, inl e) => (tr, inl e)
  | (tr, inr a) => let (tr', r) := k a in ((tr ++ tr')%list, r)
  end.

Notation "x <- m ;; k" := (bind m (fun x => k))
  (at level 61, m at next level, right associativity).
Notation "m ;;; k" := (bind m (fun _ => k))
  (at level 61, right associativity).

Definition callGenerateContent (w : World) (model : string)
    (cfg : option GenerationConfig.t) (parts : list RequestPart)
  : M Response.t :=
  ([EvGenerateContent model cfg parts], generateContent w model cfg parts).

Definition callExistsSync (w : World) (dir : string) : M bool :=
  ([EvExistsSync dir], inr (existsSync w dir)).

Definition of_outcome (o : option JS.Thrown) : JS.Thrown + unit :=
  match o with
  | Some e => inl e
  | None => inr tt
  end.

Definition callMkdirSync (w : World) (dir : string) : M unit :=
  ([EvMkdirSync dir], of_outcome (mkdirSync w dir)).

Definition callWriteFileSync (w : World) (path b64 : string) : M unit :=
  ([EvWriteFileSync path b64], of_outcome (writeFileSync w path b64)).

(** The upstream invocations of a trace. *)
Definition is_upstream (e : Event) : bool :=
  match e with
  | EvGenerateContent _ _ _ => true
  | _ => false
  end.

Definition upstream_calls (tr : list Event) : list Event :=
  filter is_upstream tr.

(* ================================================================== *)
(** * The handlers *)
(* ================================================================== *)

(** [images.map((img) => ({ inlineData: { mimeType: img.mimeType,
    data: img.data } }))] *)
Definition toInlinePart (img : ImageInput.t) : RequestPart :=
  inlineDataPart (ImageInput.mimeType img) (ImageInput.data img).

(** The block that saves the image, the same in [generateImage] and
    [editImage]:
    [if (outputPath) { const dir = path.dirname(outputPath);
       if (dir && !fs.existsSync(dir)) fs.mkdirSync(dir, {recursive: true});
       fs.writeFileSync(outputPath, Buffer.from(imageData, "base64")); }] *)
Definition saveToFile (w : World) (outputPath : option string)
    (imageData : string) : M unit :=
  match outputPath with
  | Some p =>
      if JS.truthy p then
        let dir := dirname w p in
        (if JS.truthy dir then
           present <- callExistsSync w dir ;;
           if negb present then callMkdirSync w dir else ret tt
         else ret tt) ;;;
        callWriteFileSync w p imageData
      else ret tt
  | None => ret tt
  end.

(** The two checks between the call and the scan, the same in
    [generateImage] and [editImage]:
    [if (!candidates || candidates.length === 0)
       throw new Error("No response generated");
     const content = candidates[0].content;
     if (!content || !content.parts)
       throw new Error("No content in response");]
    An empty [parts] array is truthy and passes. *)
Definition contentParts (response : Response.t) : M (list Part.t) :=
  match Response.candidates response with
  | None | Some [] => throw (JS.Error "No response generated")
  | Some (candidate :: _) =>
      match Candidate.content candidate with
      | None => throw (JS.Error "No content in response")
      | Some content =>
          match Content.parts content with
          | None => throw (JS.Error "No content in response")
          | Some cparts => ret cparts
          end
      end
  end.

(** ** [generateImage] *)

(** The three variables of the scan loop. *)
Module Scan.
Record t : Type := make {
  imageData : option string;
  mimeType : string;
  textResponse : string
}.
Definition init : t := make None "image/png" "".
End Scan.

(** One iteration of [for (const part of content.parts)]: the two [if]s
    follow each other, neither is an [else] of the other. *)
Definition scanStep (st : Scan.t) (part : Part.t) : Scan.t :=
  let st1 :=
    match Part.inlineData part with
    | Some inl_ =>
        Scan.make (Some (InlineData.data inl_))
                  (JS.or_else (InlineData.mimeType inl_) "image/png")
                  (Scan.textResponse st)
    | None => st
    end in
  match Part.text part with
  | Some t =>
      if JS.truthy t
      then Scan.make (Scan.imageData st1) (Scan.mimeType st1)
                     (Scan.textResponse st1 ++ t)
      else st1
  | None => st1
  end.

Definition scan (parts : list Part.t) : Scan.t :=
  fold_left scanStep parts Scan.init.

Definition generationConfig_generate (model : string)
    (aspectRatio : AspectRatio) (imageSize : ImageSize)
  : GenerationConfig.t :=
  if model =? MODELS.PRO then
    GenerationConfig.make ["IMAGE"; "TEXT"]
      (Some (ImageConfig.make (Some aspectRatio) imageSize)) None
  else
    GenerationConfig.make ["IMAGE"; "TEXT"] None (Some aspectRatio).

Definition parts_generate (prompt : string)
    (referenceImages : option (list ImageInput.t)) : list RequestPart :=
  (match referenceImages with
   | Some (img :: imgs) => map toInlinePart (img :: imgs)
   | _ => []
   end ++ [textPart prompt])%list.

Definition generateImage (w : World) (params : GenerateImageParams.t)
  : M ToolResult.t :=
  let prompt := GenerateImageParams.prompt params in
  let model := JS.default (GenerateImageParams.model params) DEFAULT_MODEL in
  let aspectRatio := JS.default (GenerateImageParams.aspectRatio params) AR_1_1 in
  let imageSize := JS.default (GenerateImageParams.imageSize params) Size_1K in
  let outputPath := GenerateImageParams.outputPath params in
  let referenceImages := GenerateImageParams.referenceImages params in
  let generationConfig := generationConfig_generate model aspectRatio imageSize in
  let parts := parts_generate prompt referenceImages in
  response <- callGenerateContent w model (Some generationConfig) parts ;;
  cparts <- contentParts response ;;
  let st := scan cparts in
  if negb (JS.truthy_opt (Scan.imageData st)) then
    throw (JS.Error ("No image generated. Model response: "
                     ++ Scan.textResponse st))
  else
    let imageData := JS.default (Scan.imageData st) "" in
    saveToFile w outputPath imageData ;;;
    ret (ToolResult.make
           [ image imageData (Scan.mimeType st);
             text (if JS.truthy_opt outputPath
                   then "Image generated (" ++ ImageSize_str imageSize
                        ++ ") and saved to: " ++ JS.default outputPath ""
                   else "Image generated successfully ("
                        ++ ImageSize_str imageSize ++ ")") ]
           None).

(** ** [editImage] *)

(** The two variables of the scan loop of [editImage]; text parts are not
    looked at. *)
Module EditScan.
Record t : Type := make {
  imageData : option string;
  mimeType : string
}.
Definition init : t := make None "image/png".
End EditScan.

Definition editScanStep (st : EditScan.t) (part : Part.t) : EditScan.t :=
  match Part.inlineData part with
  | Some inl_ =>
      EditScan.make (Some (InlineData.data inl_))
                    (JS.or_else (InlineData.mimeType inl_) "image/png")
  | None => st
  end.

Definition editScan (parts : list Part.t) : EditScan.t :=
  fold_left editScanStep parts EditScan.init.

Definition generationConfig_edit (model : string) (imageSize : ImageSize)
  : GenerationConfig.t :=
  if model =? MODELS.PRO then
    GenerationConfig.make ["IMAGE"; "TEXT"]
      (Some (ImageConfig.make None imageSize)) None
  else
    GenerationConfig.make ["IMAGE"; "TEXT"] None None.

Definition parts_edit (prompt : string) (images : list ImageInput.t)
  : list RequestPart :=
  (map toInlinePart images ++ [textPart prompt])%list.

Definition editImage (w : World) (params : EditImageParams.t)
  : M ToolResult.t :=
  let prompt := EditImageParams.prompt params in
  let images := EditImageParams.images params in
  let model := JS.default (EditImageParams.model params) DEFAULT_MODEL in
  let imageSize := JS.default (EditImageParams.imageSize params) Size_1K in
  let outputPath := EditImageParams.outputPath params in
  let generationConfig := generationConfig_edit model imageSize in
  let parts := parts_edit prompt images in
  response <- callGenerateContent w model (Some generationConfig) parts ;;
  cparts <- contentParts response ;;
  let st := editScan cparts in
  if negb (JS.truthy_opt (EditScan.imageData st)) then
    throw (JS.Error "No edited image generated")
  else
    let imageData := JS.default (EditScan.imageData st) "" in
    saveToFile w outputPath imageData ;;;
    ret (ToolResult.make
           [ image imageData (EditScan.mimeType st);
             text (if JS.truthy_opt outputPath
                   then "Image edited (" ++ ImageSize_str imageSize
                        ++ ") and saved to: " ++ JS.default outputPath ""
                   else "Image edited successfully ("
                        ++ ImageSize_str imageSize ++ ")") ]
           None).

(** ** [describeImage] *)

Definition describeImage (w : World) (params : DescribeImageParams.t)
  : M ToolResult.t :=
  let images := DescribeImageParams.images params in
  let prompt := JS.default (DescribeImageParams.prompt params)
                           "Describe this image in detail." in
  let model := JS.default (DescribeImageParams.model params) MODELS.PRO in
  let parts := (map toInlinePart images ++ [textPart prompt])%list in
  response <- callGenerateContent w model None parts ;;
  match Response.text response with
  | inl e => throw e
  | inr t => ret (ToolResult.make [text t] None)
  end.

(** ** The [CallToolRequestSchema] handler *)

(** [request.params]: the tool name and its arguments.  The handler casts
    [arguments] to the parameter type of the named tool without looking at
    it, so a request is a tool name together with arguments of that tool's
    type, or any other name. *)
Inductive CallToolRequest : Type :=
| generate_image (args : GenerateImageParams.t)
| edit_image (args : EditImageParams.t)
| describe_image (args : DescribeImageParams.t)
| other_tool (name : string).

(** The [switch (name)]. *)
Definition dispatch (w : World) (request : CallToolRequest) : M ToolResult.t :=
  match request with
  | generate_image args => generateImage w args
  | edit_image args => editImage w args
  | describe_image args => describeImage w args
  | other_tool name => throw (JS.Error ("Unknown tool: " ++ name))
  end.

(** The [try { ... } catch (error) { ... }] around it. *)
Definition callTool (w : World) (request : CallToolRequest)
  : list Event * ToolResult.t :=
  match dispatch w request with
  | (tr, inr result) => (tr, result)
  | (tr, inl error) =>
      (tr, ToolResult.make [text ("Error: " ++ JS.message_of error)]
                           (Some true))
  end.

(* ================================================================== *)
(** * Vocabulary of the statements *)
(* ================================================================== *)

(** The upstream invocation a request leads to: model, generation
    configuration and content sequence, as the handler computes them
    before the call. *)
Definition invocation (request : CallToolRequest) : option Event :=
  match request with
  | generate_image p =>
      let model := JS.default (GenerateImageParams.model p) DEFAULT_MODEL in
      Some (EvGenerateContent model
              (Some (generationConfig_generate model
                       (JS.default (GenerateImageParams.aspectRatio p) AR_1_1)
                       (JS.default (GenerateImageParams.imageSize p) Size_1K)))
              (parts_generate (GenerateImageParams.prompt p)
                              (GenerateImageParams.referenceImages p)))
  | edit_image p =>
      let model := JS.default (EditImageParams.model p) DEFAULT_MODEL in
      Some (EvGenerateContent model
              (Some (generationConfig_edit model
                       (JS.default (EditImageParams.imageSize p) Size_1K)))
              (parts_edit (EditImageParams.prompt p)
                          (EditImageParams.images p)))
  | describe_image p =>
      Some (EvGenerateContent
              (JS.default (DescribeImageParams.model p) MODELS.PRO)
              None
              (map toInlinePart (DescribeImageParams.images p)
               ++ [textPart (JS.default (DescribeImageParams.prompt p)
                                        "Describe this image in detail.")])%list)
  | other_tool _ => None
  end.

(** What the world answers to that invocation. *)
Definition answer (w : World) (request : CallToolRequest)
  : option (JS.Thrown + Response.t) :=
  match invocation request with
  | Some (EvGenerateContent model cfg parts) =>
      Some (generateContent w model cfg parts)
  | _ => None
  end.

(** The requests of the two tools that must produce an image. *)
Definition image_tool (request : CallToolRequest) : bool :=
  match request with
  | generate_image _ | edit_image _ => true
  | _ => false
  end.

Definition outputPath_of (request : CallToolRequest) : option string :=
  match request with
  | generate_image p => GenerateImageParams.outputPath p
  | edit_image p => EditImageParams.outputPath p
  | _ => None
  end.

(** The last part of a response that carries inline data. *)
Fixpoint lastInline (parts : list Part.t) : option InlineData.t :=
  match parts with
  | [] => None
  | part :: rest =>
      match lastInline rest with
      | Some i => Some i
      | None => Part.inlineData part
      end
  end.

(** The MIME type a part supplies: that of its inline data, when it has
    inline data with a non-empty MIME type. *)
Definition suppliedMimeType (part : Part.t) : option string :=
  match Part.inlineData part with
  | Some i =>
      if JS.truthy_opt (InlineData.mimeType i)
      then InlineData.mimeType i
      else None
  | None => None
  end.

(** The MIME type of the last part that supplies one. *)
Fixpoint lastSuppliedMimeType (parts : list Part.t) : option string :=
  match parts with
  | [] => None
  | part :: rest =>
      match lastSuppliedMimeType rest with
      | Some m => Some m
      | None => suppliedMimeType part
      end
  end.

(** The texts of the parts that have one, in order. *)
Fixpoint textParts (parts : list Part.t) : list string :=
  match parts with
  | [] => []
  | part :: rest =>
      match Part.text part with
      | Some t => t :: textParts rest
      | None => textParts rest
      end
  end.

Fixpoint concatAll (l : list string) : string :=
  match l with
  | [] => ""
  | s :: rest => s ++ concatAll rest
  end.

(** A result is success-shaped when [isError] is absent or false and an
    image item is among its content. *)
Definition is_image (c : ContentItem) : bool :=
  match c with
  | image _ _ => true
  | text _ => false
  end.

Definition success_shaped (r : ToolResult.t) : bool :=
  match ToolResult.isError r with
  | Some true => false
  | _ => existsb is_image (ToolResult.content r)
  end.

(** The error-shaped result the handler builds for a message. *)
Definition errorResult (message : string) : ToolResult.t :=
  ToolResult.make [text ("Error: " ++ message)] (Some true).

(** Does the directory step of [saveToFile] throw? *)
Definition mkdir_throws (w : World) (path : string) : bool :=
  let dir := dirname w path in
  JS.truthy dir && negb (existsSync w dir)
  && match mkdirSync w dir with Some _ => true | None => false end.

(** A computation is quiet when it makes no upstream call. *)
Definition quiet {A : Type} (m : M A) : Prop := upstream_calls (fst m) = [].

Definition imageSize_of (request : CallToolRequest) : ImageSize :=
  match request with
  | generate_image p => JS.default (GenerateImageParams.imageSize p) Size_1K
  | edit_image p => JS.default (EditImageParams.imageSize p) Size_1K
  | _ => Size_1K
  end.

(** The status text of a successful [generate_image] or [edit_image]. *)
Definition statusText (request : CallToolRequest) : string :=
  let verb :=
    match request with
    | generate_image _ => "generated"
    | _ => "edited"
    end in
  if JS.truthy_opt (outputPath_of request)
  then "Image " ++ verb ++ " (" ++ ImageSize_str (imageSize_of request)
       ++ ") and saved to: " ++ JS.default (outputPath_of request) ""
  else "Image " ++ verb ++ " successfully ("
       ++ ImageSize_str (imageSize_of request) ++ ")".

(** The message thrown when the scan ends without image data. *)
Definition noImageMessage (request : CallToolRequest) (parts : list Part.t)
  : string :=
  match request with
  | generate_image _ =>
      "No image generated. Model response: " ++ concatAll (textParts parts)
  | _ => "No edited image generated"
  end.

(** What the handler of an image tool does with the content parts of the
    first candidate, in terms of the last inline part. *)
Definition after_scan (w : World) (request : CallToolRequest)
    (cparts : list Part.t) : JS.Thrown + ToolResult.t :=
  match lastInline cparts with
  | Some i =>
      if JS.truthy (InlineData.data i) then
        match snd (saveToFile w (outputPath_of request) (InlineData.data i)) with
        | inl e => inl e
        | inr _ =>
            inr (ToolResult.make
                   [ image (InlineData.data i)
                           (JS.or_else (InlineData.mimeType i) "image/png");
                     text (statusText request) ]
                   None)
        end
      else inl (JS.Error (noImageMessage request cparts))
  | None => inl (JS.Error (noImageMessage request cparts))
  end.

(** ** Sample worlds and requests *)

Module Sample.

(** A world whose upstream always answers [r], where every directory
    exists and every write succeeds. *)
Definition world (r : JS.Thrown + Response.t) : World :=
  {| generateContent := fun _ _ _ => r;
     dirname := fun _ => "/out";
     existsSync := fun _ => true;
     mkdirSync := fun _ => None;
     writeFileSync := fun _ _ => None |}.

(** The same, but every write is refused. *)
Definition readonly (r : JS.Thrown + Response.t) : World :=
  {| generateContent := fun _ _ _ => r;
     dirname := fun _ => "/out";
     existsSync := fun _ => true;
     mkdirSync := fun _ => None;
     writeFileSync := fun p _ =>
       Some (JS.Error ("EACCES: permission denied, open '" ++ p ++ "'")) |}.

Definition respond (parts : list Part.t) : Response.t :=
  Response.make
    (Some [Candidate.make (Some (Content.make (Some parts)))])
    (inr (concatAll (textParts parts))).

Definition inlinePart (mime : option string) (data : string) : Part.t :=
  Part.make (Some (InlineData.make mime data)) None.

Definition textOnly (t : string) : Part.t := Part.make None (Some t).

Definition jpeg : Part.t := inlinePart (Some "image/jpeg") "QUJD".

Definition refusal : string :=
  "I cannot edit this image because it shows a real person.".

Definition img (n : string) : ImageInput.t :=
  ImageInput.make n "image/png".

Definition fifteen : list ImageInput.t :=
  map img ["a"; "b"; "c"; "d"; "e"; "f"; "g"; "h"; "i"; "j"; "k"; "l";
           "m"; "n"; "o"].

Definition generate (prompt : string) (out : option string)
    (refs : option (list ImageInput.t)) : GenerateImageParams.t :=
  GenerateImageParams.make prompt None None None out refs.

Definition edit (prompt : string) (imgs : list ImageInput.t)
    (out : option string) : EditImageParams.t :=
  EditImageParams.make prompt imgs None None out.

End Sample.

(* ================================================================== *)
(** * Vocabulary of the further properties *)
(* ================================================================== *)

(** The calls to [fs]. *)
Definition is_fs (e : Event) : bool :=
  match e with
  | EvExistsSync _ | EvMkdirSync _ | EvWriteFileSync _ _ => true
  | EvGenerateContent _ _ _ => false
  end.

Definition is_write (e : Event) : bool :=
  match e with
  | EvWriteFileSync _ _ => true
  | _ => false
  end.

(** The calls the save block makes for a truthy path, in order: the
    existence test when [dirname] is truthy, the creation when the test
    says no, the write unless the creation threw. *)
Definition saveTrace (w : World) (path data : string) : list Event :=
  let dir := dirname w path in
  ((if JS.truthy dir then
      EvExistsSync dir
      :: (if existsSync w dir then [] else [EvMkdirSync dir])
    else [])
   ++ (if mkdir_throws w path then [] else [EvWriteFileSync path data]))%list.

(** The model a request is sent to. *)
Definition model_of (request : CallToolRequest) : string :=
  match request with
  | generate_image p => JS.default (GenerateImageParams.model p) DEFAULT_MODEL
  | edit_image p => JS.default (EditImageParams.model p) DEFAULT_MODEL
  | describe_image p => JS.default (DescribeImageParams.model p) MODELS.PRO
  | other_tool _ => ""
  end.

(** A request with its [outputPath] property replaced. *)
Definition withOutputPath (o : option string) (request : CallToolRequest)
  : CallToolRequest :=
  match request with
  | generate_image p =>
      generate_image
        (GenerateImageParams.make
           (GenerateImageParams.prompt p) (GenerateImageParams.model p)
           (GenerateImageParams.aspectRatio p)
           (GenerateImageParams.imageSize p) o
           (GenerateImageParams.referenceImages p))
  | edit_image p =>
      edit_image
        (EditImageParams.make
           (EditImageParams.prompt p) (EditImageParams.images p)
           (EditImageParams.model p) (EditImageParams.imageSize p) o)
  | _ => request
  end.

(** A request with its [imageSize] property replaced. *)
Definition withImageSize (s : option ImageSize) (request : CallToolRequest)
  : CallToolRequest :=
  match request with
  | generate_image p =>
      generate_image
        (GenerateImageParams.make
           (GenerateImageParams.prompt p) (GenerateImageParams.model p)
           (GenerateImageParams.aspectRatio p) s
           (GenerateImageParams.outputPath p)
           (GenerateImageParams.referenceImages p))
  | edit_image p =>
      edit_image
        (EditImageParams.make
           (EditImageParams.prompt p) (EditImageParams.images p)
           (EditImageParams.model p) s (EditImageParams.outputPath p))
  | _ => request
  end.

(** A request in which every property that has a default in the
    handler's destructuring pattern is present: the given value when
    there is one, the default otherwise. *)
Definition withDefaults (request : CallToolRequest) : CallToolRequest :=
  match request with
  | generate_image p =>
      generate_image
        (GenerateImageParams.make
           (GenerateImageParams.prompt p)
           (Some (JS.default (GenerateImageParams.model p) DEFAULT_MODEL))
           (Some (JS.default (GenerateImageParams.aspectRatio p) AR_1_1))
           (Some (JS.default (GenerateImageParams.imageSize p) Size_1K))
           (GenerateImageParams.outputPath p)
           (GenerateImageParams.referenceImages p))
  | edit_image p =>
      edit_image
        (EditImageParams.make
           (EditImageParams.prompt p) (EditImageParams.images p)
           (Some (JS.default (EditImageParams.model p) DEFAULT_MODEL))
           (Some (JS.default (EditImageParams.imageSize p) Size_1K))
           (EditImageParams.outputPath p))
  | describe_image p =>
      describe_image
        (DescribeImageParams.make
           (DescribeImageParams.images p)
           (Some (JS.default (DescribeImageParams.prompt p)
                             "Describe this image in detail."))
           (Some (JS.default (DescribeImageParams.model p) MODELS.PRO)))
  | other_tool _ => request
  end.

(** The world [w] with an upstream that answers [r] to every call. *)
Definition withAnswer (w : World) (r : JS.Thrown + Response.t) : World :=
  {| generateContent := fun _ _ _ => r;
     dirname := dirname w;
     existsSync := existsSync w;
     mkdirSync := mkdirSync w;
     writeFileSync := writeFileSync w |}.

(** The image items of a result. *)
Definition images_of (r : ToolResult.t) : list ContentItem :=
  filter is_image (ToolResult.content r).



(** ** More sample worlds *)

Module Scenario.

(** The output directory is missing and cannot be created. *)
Definition lockedParent (r : JS.Thrown + Response.t) : World :=
  {| generateContent := fun _ _ _ => r;
     dirname := fun _ => "/locked/out";
     existsSync := fun _ => false;
     mkdirSync := fun d =>
       Some (JS.Error ("EACCES: permission denied, mkdir '" ++ d ++ "'"));
     writeFileSync := fun _ _ => None |}.

(** The output directory is missing and gets created. *)
Definition freshDir (r : JS.Thrown + Response.t) : World :=
  {| generateContent := fun _ _ _ => r;
     dirname := fun _ => "/new/out";
     existsSync := fun _ => false;
     mkdirSync := fun _ => None;
     writeFileSync := fun _ _ => None |}.

Definition quota : JS.Thrown :=
  JS.Error "[429 Too Many Requests] Resource has been exhausted".

End Scenario.

(* ================================================================== *)
(** * Strings and the effect monad *)
(* ================================================================== *)

Lemma append_nil_r (s : string) : s ++ "" = s.
Proof. induction s as [|c s IH]; simpl; [reflexivity | now rewrite IH]. Qed.

Lemma append_assoc (a b c : string) : (a ++ b) ++ c = a ++ (b ++ c).
Proof. induction a as [|x a IH]; simpl; [reflexivity | now rewrite IH]. Qed.

Lemma includes_suffix (before s : string) : JS.includes (before ++ s) s.
Proof. exists before, "". now rewrite append_nil_r. Qed.

Lemma not_truthy_empty (s : string) : JS.truthy s = false -> s = "".
Proof. destruct s; simpl; [reflexivity | discriminate]. Qed.

Lemma fst_bind {A B : Type} (m : M A) (k : A -> M B) :
  fst (bind m k) =
  (fst m ++ match snd m with inl _ => [] | inr a => fst (k a) end)%list.
Proof.
  destruct m as [tr [e | a]]; simpl.
  - now rewrite app_nil_r.
  - now destruct (k a).
Qed.

Lemma snd_bind {A B : Type} (m : M A) (k : A -> M B) :
  snd (bind m k) =
  match snd m with inl e => inl e | inr a => snd (k a) end.
Proof.
  destruct m as [tr [e | a]]; simpl; [reflexivity | now destruct (k a)].
Qed.

Lemma fst_callTool (w : World) (request : CallToolRequest) :
  fst (callTool w request) = fst (dispatch w request).
Proof. unfold callTool. now destruct (dispatch w request) as [tr [e | r]]. Qed.

Lemma snd_callTool (w : World) (request : CallToolRequest) :
  snd (callTool w request) =
  match snd (dispatch w request) with
  | inl e => errorResult (JS.message_of e)
  | inr r => r
  end.
Proof. unfold callTool. now destruct (dispatch w request) as [tr [e | r]]. Qed.

Lemma quiet_bind {A B : Type} (m : M A) (k : A -> M B) :
  quiet m -> (forall a, quiet (k a)) -> quiet (bind m k).
Proof.
  unfold quiet, upstream_calls. intros Hm Hk.
  rewrite fst_bind, filter_app, Hm. simpl.
  destruct (snd m); [reflexivity | apply Hk].
Qed.

Lemma quiet_contentParts (response : Response.t) :
  quiet (contentParts response).
Proof.
  unfold contentParts.
  destruct (Response.candidates response) as [[|c ?]|]; try reflexivity.
  destruct (Candidate.content c) as [ct|]; try reflexivity.
  destruct (Content.parts ct); reflexivity.
Qed.

Lemma quiet_saveToFile (w : World) (o : option string) (d : string) :
  quiet (saveToFile w o d).
Proof.
  unfold saveToFile.
  destruct o as [p|]; [|reflexivity].
  destruct (JS.truthy p); [|reflexivity].
  apply quiet_bind; [|intros; reflexivity].
  destruct (JS.truthy (dirname w p)); [|reflexivity].
  apply quiet_bind; [reflexivity|].
  intros present. destruct present; reflexivity.
Qed.

(* ================================================================== *)
(** * The scan loops *)
(* ================================================================== *)

Section ScanLoop.

Lemma scan_from_imageData (parts : list Part.t) (st : Scan.t) :
  Scan.imageData (fold_left scanStep parts st) =
  match lastInline parts with
  | Some i => Some (InlineData.data i)
  | None => Scan.imageData st
  end.
Proof.
  revert st. induction parts as [|part rest IH]; intros st; simpl.
  - reflexivity.
  - rewrite IH. destruct (lastInline rest) as [i|]; [reflexivity|].
    unfold scanStep.
    destruct (Part.inlineData part) as [i|], (Part.text part) as [t|];
      try destruct (JS.truthy t); reflexivity.
Qed.

Lemma scan_from_mimeType (parts : list Part.t) (st : Scan.t) :
  Scan.mimeType (fold_left scanStep parts st) =
  match lastInline parts with
  | Some i => JS.or_else (InlineData.mimeType i) "image/png"
  | None => Scan.mimeType st
  end.
Proof.
  revert st. induction parts as [|part rest IH]; intros st; simpl.
  - reflexivity.
  - rewrite IH. destruct (lastInline rest) as [i|]; [reflexivity|].
    unfold scanStep.
    destruct (Part.inlineData part) as [i|], (Part.text part) as [t|];
      try destruct (JS.truthy t); reflexivity.
Qed.

Lemma scan_from_textResponse (parts : list Part.t) (st : Scan.t) :
  Scan.textResponse (fold_left scanStep parts st) =
  Scan.textResponse st ++ concatAll (textParts parts).
Proof.
  revert st. induction parts as [|part rest IH]; intros st; simpl.
  - now rewrite append_nil_r.
  - rewrite IH. unfold scanStep.
    destruct (Part.inlineData part) as [i|], (Part.text part) as [t|];
      simpl; try reflexivity;
      destruct (JS.truthy t) eqn:Ht; simpl;
      try (now rewrite append_assoc);
      apply not_truthy_empty in Ht; subst t; reflexivity.
Qed.

Lemma scan_imageData (parts : list Part.t) :
  Scan.imageData (scan parts) = option_map InlineData.data (lastInline parts).
Proof.
  unfold scan. rewrite scan_from_imageData.
  now destruct (lastInline parts).
Qed.

Lemma scan_mimeType (parts : list Part.t) :
  Scan.mimeType (scan parts) =
  match lastInline parts with
  | Some i => JS.or_else (InlineData.mimeType i) "image/png"
  | None => "image/png"
  end.
Proof. unfold scan. now rewrite scan_from_mimeType. Qed.

Lemma scan_textResponse (parts : list Part.t) :
  Scan.textResponse (scan parts) = concatAll (textParts parts).
Proof. unfold scan. now rewrite scan_from_textResponse. Qed.

(** The loop of [editImage] computes the first two variables of the
    loop of [generateImage]. *)
Lemma editScan_from (parts : list Part.t) (st : Scan.t) :
  fold_left editScanStep parts
    (EditScan.make (Scan.imageData st) (Scan.mimeType st)) =
  EditScan.make (Scan.imageData (fold_left scanStep parts st))
                (Scan.mimeType (fold_left scanStep parts st)).
Proof.
  revert st. induction parts as [|part rest IH]; intros st; simpl.
  - reflexivity.
  - rewrite <- IH. f_equal. unfold editScanStep, scanStep.
    destruct (Part.inlineData part) as [i|], (Part.text part) as [t|];
      try destruct (JS.truthy t); reflexivity.
Qed.

Lemma editScan_scan (parts : list Part.t) :
  editScan parts =
  EditScan.make (Scan.imageData (scan parts)) (Scan.mimeType (scan parts)).
Proof. unfold editScan, scan. now rewrite <- editScan_from. Qed.

Lemma lastInline_app (l1 l2 : list Part.t) :
  lastInline (l1 ++ l2) =
  match lastInline l2 with
  | Some i => Some i
  | None => lastInline l1
  end.
Proof.
  induction l1 as [|part rest IH]; simpl.
  - now destruct (lastInline l2).
  - rewrite IH. now destruct (lastInline l2).
Qed.


End ScanLoop.

(* ================================================================== *)
(** * The handlers, step by step *)
(* ================================================================== *)

Section Handlers.

Variable w : World.

(** Every handler calls the upstream exactly once, with the arguments
    [invocation] gives; an unknown tool name calls nothing. *)
Lemma upstream_calls_dispatch (request : CallToolRequest) :
  upstream_calls (fst (dispatch w request)) =
  match invocation request with
  | Some ev => [ev]
  | None => []
  end.
Proof.
  destruct request as [p | p | p | name]; simpl; [| | |reflexivity].
  - unfold generateImage, upstream_calls.
    rewrite fst_bind, filter_app. simpl. f_equal.
    destruct (generateContent w _ _ _) as [e | response]; [reflexivity|].
    apply quiet_bind; [apply quiet_contentParts|].
    intros cparts. simpl.
    destruct (negb _); [reflexivity|].
    apply quiet_bind; [apply quiet_saveToFile | intros; reflexivity].
  - unfold editImage, upstream_calls.
    rewrite fst_bind, filter_app. simpl. f_equal.
    destruct (generateContent w _ _ _) as [e | response]; [reflexivity|].
    apply quiet_bind; [apply quiet_contentParts|].
    intros cparts. simpl.
    destruct (negb _); [reflexivity|].
    apply quiet_bind; [apply quiet_saveToFile | intros; reflexivity].
  - unfold describeImage, upstream_calls.
    rewrite fst_bind, filter_app. simpl. f_equal.
    destruct (generateContent w _ _ _) as [e | response]; [reflexivity|].
    destruct (Response.text response); reflexivity.
Qed.

Lemma upstream_calls_callTool (request : CallToolRequest) :
  upstream_calls (fst (callTool w request)) =
  match invocation request with
  | Some ev => [ev]
  | None => []
  end.
Proof. rewrite fst_callTool. apply upstream_calls_dispatch. Qed.

(** A failure of the upstream call is what the handler throws. *)
Lemma snd_dispatch_thrown (request : CallToolRequest) (e : JS.Thrown) :
  answer w request = Some (inl e) ->
  snd (dispatch w request) = inl e.
Proof.
  destruct request as [p | p | p | name]; unfold answer; simpl;
    try discriminate; intros [= H].
  - unfold generateImage. rewrite snd_bind. simpl. now rewrite H.
  - unfold editImage. rewrite snd_bind. simpl. now rewrite H.
  - unfold describeImage. rewrite snd_bind. simpl. now rewrite H.
Qed.

(** After an answer, an image tool checks the response, scans the
    parts and finishes as [after_scan] says. *)
Lemma snd_dispatch_image (request : CallToolRequest)
    (response : Response.t) :
  image_tool request = true ->
  answer w request = Some (inr response) ->
  snd (dispatch w request) =
  match snd (contentParts response) with
  | inl e => inl e
  | inr cparts => after_scan w request cparts
  end.
Proof.
  destruct request as [p | p | p | name]; simpl; try discriminate;
    intros _; unfold answer; simpl; intros [= H].
  - unfold generateImage. rewrite snd_bind. simpl. rewrite H.
    rewrite snd_bind.
    destruct (snd (contentParts response)) as [e | cparts]; [reflexivity|].
    unfold after_scan. simpl.
    rewrite scan_imageData, scan_mimeType, scan_textResponse.
    destruct (lastInline cparts) as [i|]; simpl; [|reflexivity].
    destruct (JS.truthy (InlineData.data i)); simpl; [|reflexivity].
    rewrite snd_bind.
    destruct (snd (saveToFile w _ _)); [reflexivity|].
    unfold statusText. simpl.
    destruct (JS.truthy_opt (GenerateImageParams.outputPath p)); reflexivity.
  - unfold editImage. rewrite snd_bind. simpl. rewrite H.
    rewrite snd_bind.
    destruct (snd (contentParts response)) as [e | cparts]; [reflexivity|].
    unfold after_scan. simpl.
    rewrite editScan_scan. simpl.
    rewrite scan_imageData, scan_mimeType.
    destruct (lastInline cparts) as [i|]; simpl; [|reflexivity].
    destruct (JS.truthy (InlineData.data i)); simpl; [|reflexivity].
    rewrite snd_bind.
    destruct (snd (saveToFile w _ _)); [reflexivity|].
    unfold statusText. simpl.
    destruct (JS.truthy_opt (EditImageParams.outputPath p)); reflexivity.
Qed.

Lemma answer_image_tool (request : CallToolRequest) :
  image_tool request = true -> exists r, answer w request = Some r.
Proof.
  destruct request; simpl; try discriminate; intros _;
    unfold answer; simpl; eexists; reflexivity.
Qed.

(** [saveToFile]: what it returns. *)
Lemma snd_saveToFile_none (d : string) :
  snd (saveToFile w None d) = inr tt.
Proof. reflexivity. Qed.

Lemma snd_saveToFile_write (path d : string) :
  JS.truthy path = true ->
  mkdir_throws w path = false ->
  snd (saveToFile w (Some path) d) = of_outcome (writeFileSync w path d).
Proof.
  intros Hp Hdir. unfold saveToFile. rewrite Hp.
  rewrite snd_bind. unfold mkdir_throws in Hdir.
  destruct (JS.truthy (dirname w path)); simpl in *; [|reflexivity].
  destruct (existsSync w (dirname w path)); simpl in *; [reflexivity|].
  destruct (mkdirSync w (dirname w path)); simpl in *;
    [discriminate | reflexivity].
Qed.

End Handlers.

(* ================================================================== *)
(** * Requests: what reaches the upstream *)
(* ================================================================== *)

(** A run of [edit_image] with no image at all, against an upstream that
    answers with one JPEG. *)
Example edit_image_empty_images_run :
  callTool (Sample.world (inr (Sample.respond [Sample.jpeg])))
           (edit_image (Sample.edit "make it blue" [] None)) =
  ( [ EvGenerateContent "gemini-3-pro-image-preview"
        (Some (GenerationConfig.make ["IMAGE"; "TEXT"]
                 (Some (ImageConfig.make None Size_1K)) None))
        [textPart "make it blue"] ],
    ToolResult.make
      [ image "QUJD" "image/jpeg"; text "Image edited successfully (1K)" ]
      None ).
Proof. reflexivity. Qed.

(** C1, as stated, fails: it is not true that every [edit_image] call
    with an empty [images] gets an error result and leaves the upstream
    uncalled.  The run above is a call with [images = []] whose result has
    no [isError] and whose trace holds an upstream invocation. *)
Lemma C1_empty_images_not_rejected :
  ~ (forall (w : World) (p : EditImageParams.t),
        EditImageParams.images p = [] ->
        ToolResult.isError (snd (callTool w (edit_image p))) = Some true
        /\ upstream_calls (fst (callTool w (edit_image p))) = []).
Proof.
  intros H.
  destruct (H (Sample.world (inr (Sample.respond [Sample.jpeg])))
              (Sample.edit "make it blue" [] None) eq_refl) as [Herr _].
  rewrite edit_image_empty_images_run in Herr. discriminate.
Qed.

(** C1, amended: for every [edit_image] call whose [images] is empty the
    handler makes no check.  The upstream is invoked exactly once, with a
    content sequence that holds only the prompt's text part; when it
    answers with a usable image and the save block does not throw (no
    output path, or the creation of the directory and the write both go
    through) the result is the ordinary success result.  The lower bound
    of one image exists only in the advertised schema ([minItems: 1]),
    which rejects length 0 but is read by no handler. *)
Theorem C1_edit_image_empty_images_reaches_upstream
    (w : World) (p : EditImageParams.t) :
  EditImageParams.images p = [] ->
  let model := JS.default (EditImageParams.model p) DEFAULT_MODEL in
  let size := JS.default (EditImageParams.imageSize p) Size_1K in
  let cfg := Some (generationConfig_edit model size) in
  let parts := [textPart (EditImageParams.prompt p)] in
  upstream_calls (fst (callTool w (edit_image p))) =
    [EvGenerateContent model cfg parts]
  /\ (forall response cparts i,
        generateContent w model cfg parts = inr response ->
        snd (contentParts response) = inr cparts ->
        lastInline cparts = Some i ->
        JS.truthy (InlineData.data i) = true ->
        snd (saveToFile w (EditImageParams.outputPath p) (InlineData.data i))
        = inr tt ->
        snd (callTool w (edit_image p)) =
        ToolResult.make
          [ image (InlineData.data i)
                  (JS.or_else (InlineData.mimeType i) "image/png");
            text (if JS.truthy_opt (EditImageParams.outputPath p)
                  then "Image edited (" ++ ImageSize_str size
                       ++ ") and saved to: "
                       ++ JS.default (EditImageParams.outputPath p) ""
                  else "Image edited successfully ("
                       ++ ImageSize_str size ++ ")") ]
          None)
  /\ option_map (fun a => Schema.admits a 0)
                (Schema.array_of tools "edit_image" "images") = Some false.
Proof.
  intros Himgs model size cfg parts.
  assert (Hinv : invocation (edit_image p) =
                 Some (EvGenerateContent model cfg parts)).
  { simpl. unfold parts_edit. now rewrite Himgs. }
  split; [|split].
  - rewrite upstream_calls_callTool. now rewrite Hinv.
  - intros response cparts i Hans Hparts Hlast Hdata Hsave.
    rewrite snd_callTool.
    rewrite (snd_dispatch_image w (edit_image p) response eq_refl).
    + rewrite Hparts. unfold after_scan. rewrite Hlast, Hdata.
      simpl outputPath_of. rewrite Hsave. simpl.
      unfold statusText. simpl.
      now destruct (JS.truthy_opt (EditImageParams.outputPath p)).
    + unfold answer. rewrite Hinv. now rewrite Hans.
  - reflexivity.
Qed.

Lemma C1_edit_image_empty_images_reaches_upstream_witness :
  let w := Sample.world (inr (Sample.respond [Sample.jpeg])) in
  let p := Sample.edit "make it blue" [] (Some "/out/blue.png") in
  upstream_calls (fst (callTool w (edit_image p))) =
    [ EvGenerateContent MODELS.PRO
        (Some (generationConfig_edit MODELS.PRO Size_1K))
        [textPart "make it blue"] ]
  /\ snd (callTool w (edit_image p)) =
     ToolResult.make
       [ image "QUJD" "image/jpeg";
         text "Image edited (1K) and saved to: /out/blue.png" ]
       None.
Proof.
  pose proof (C1_edit_image_empty_images_reaches_upstream
                (Sample.world (inr (Sample.respond [Sample.jpeg])))
                (Sample.edit "make it blue" [] (Some "/out/blue.png"))
                eq_refl) as [Hcalls [Hresult _]].
  split; [exact Hcalls|].
  exact (Hresult (Sample.respond [Sample.jpeg]) [Sample.jpeg]
                 (InlineData.make (Some "image/jpeg") "QUJD")
                 eq_refl eq_refl eq_refl eq_refl eq_refl).
Defined.

(** A run of [generate_image] with fifteen reference images. *)
Example generate_image_fifteen_run :
  callTool (Sample.world (inr (Sample.respond [Sample.jpeg])))
           (generate_image
              (Sample.generate "a cat" None (Some Sample.fifteen))) =
  ( [ EvGenerateContent "gemini-3-pro-image-preview"
        (Some (GenerationConfig.make ["IMAGE"; "TEXT"]
                 (Some (ImageConfig.make (Some AR_1_1) Size_1K)) None))
        (map toInlinePart Sample.fifteen ++ [textPart "a cat"])%list ],
    ToolResult.make
      [ image "QUJD" "image/jpeg";
        text "Image generated successfully (1K)" ]
      None ).
Proof. reflexivity. Qed.

(** C2, as stated, fails in its first half: a [generate_image] call with
    fifteen reference images is not answered with an error result. *)
Lemma C2_fifteen_reference_images_not_rejected :
  ~ (forall (w : World) (p : GenerateImageParams.t) (l : list ImageInput.t),
        GenerateImageParams.referenceImages p = Some l ->
        List.length l = 15 ->
        ToolResult.isError (snd (callTool w (generate_image p))) = Some true).
Proof.
  intros H.
  specialize (H (Sample.world (inr (Sample.respond [Sample.jpeg])))
                (Sample.generate "a cat" None (Some Sample.fifteen))
                Sample.fifteen eq_refl eq_refl).
  rewrite generate_image_fifteen_run in H. discriminate.
Qed.

(** C2, amended: the handler of [generate_image] never looks at the
    length of [referenceImages].  With fourteen images as with fifteen the
    request proceeds to the upstream, which is invoked exactly once with
    every reference image, in order, followed by the prompt.  The bound of
    fourteen exists only in the advertised schema ([maxItems: 14]), which
    admits length 14 and rejects length 15 but is read by no handler. *)
Theorem C2_reference_images_length_unchecked
    (w : World) (p : GenerateImageParams.t) (l : list ImageInput.t) :
  GenerateImageParams.referenceImages p = Some l ->
  List.length l = 14 \/ List.length l = 15 ->
  let model := JS.default (GenerateImageParams.model p) DEFAULT_MODEL in
  let cfg :=
    Some (generationConfig_generate model
            (JS.default (GenerateImageParams.aspectRatio p) AR_1_1)
            (JS.default (GenerateImageParams.imageSize p) Size_1K)) in
  upstream_calls (fst (callTool w (generate_image p))) =
    [ EvGenerateContent model cfg
        (map toInlinePart l ++ [textPart (GenerateImageParams.prompt p)])%list ]
  /\ option_map (fun a => (Schema.admits a 14, Schema.admits a 15))
                (Schema.array_of tools "generate_image" "referenceImages")
     = Some (true, false).
Proof.
  intros Hrefs Hlen model cfg. split; [|reflexivity].
  rewrite upstream_calls_callTool. simpl. unfold parts_generate.
  rewrite Hrefs. destruct l as [|img imgs]; [|reflexivity].
  simpl in Hlen. destruct Hlen; discriminate.
Qed.

Lemma C2_reference_images_length_unchecked_witness :
  upstream_calls
    (fst (callTool (Sample.world (inr (Sample.respond [Sample.jpeg])))
            (generate_image
               (Sample.generate "a cat" None (Some Sample.fifteen))))) =
  [ EvGenerateContent MODELS.PRO
      (Some (generationConfig_generate MODELS.PRO AR_1_1 Size_1K))
      (map toInlinePart Sample.fifteen ++ [textPart "a cat"])%list ].
Proof.
  exact (proj1 (C2_reference_images_length_unchecked
                  (Sample.world (inr (Sample.respond [Sample.jpeg])))
                  (Sample.generate "a cat" None (Some Sample.fifteen))
                  Sample.fifteen eq_refl (or_intror eq_refl))).
Defined.

(** C7: a [generate_image] call that supplies only a prompt makes one
    upstream invocation, for the PRO model (the default), with an image
    configuration of aspect ratio "1:1" and size "1K". *)
Theorem C7_generate_image_defaults (w : World) (prompt : string) :
  upstream_calls
    (fst (callTool w
            (generate_image
               (GenerateImageParams.make prompt None None None None None)))) =
  [ EvGenerateContent MODELS.PRO
      (Some (GenerationConfig.make ["IMAGE"; "TEXT"]
               (Some (ImageConfig.make (Some AR_1_1) Size_1K)) None))
      [textPart prompt] ]
  /\ DEFAULT_MODEL = MODELS.PRO
  /\ AspectRatio_str AR_1_1 = "1:1"
  /\ ImageSize_str Size_1K = "1K".
Proof.
  split; [|repeat split].
  rewrite upstream_calls_callTool. reflexivity.
Qed.

(** C8: for every [generate_image] and every [edit_image] request, the
    content sequence of the one upstream invocation is the caller's images
    ([referenceImages], none when absent; [images]), each turned into the
    inline part with its own MIME type and data, one by one in their
    order, followed by a single text part with the prompt. *)
Theorem C8_content_sequence_order (w : World) :
  (forall p : GenerateImageParams.t, exists model cfg,
      upstream_calls (fst (callTool w (generate_image p))) =
      [ EvGenerateContent model cfg
          (map (fun img =>
                  inlineDataPart (ImageInput.mimeType img)
                                 (ImageInput.data img))
               (JS.default (GenerateImageParams.referenceImages p) [])
           ++ [textPart (GenerateImageParams.prompt p)])%list ])
  /\ (forall p : EditImageParams.t, exists model cfg,
      upstream_calls (fst (callTool w (edit_image p))) =
      [ EvGenerateContent model cfg
          (map (fun img =>
                  inlineDataPart (ImageInput.mimeType img)
                                 (ImageInput.data img))
               (EditImageParams.images p)
           ++ [textPart (EditImageParams.prompt p)])%list ]).
Proof.
  split; intros p; do 2 eexists; rewrite upstream_calls_callTool; simpl.
  - unfold parts_generate.
    destruct (GenerateImageParams.referenceImages p) as [[|img imgs]|];
      reflexivity.
  - reflexivity.
Qed.

(* ================================================================== *)
(** * Responses: normalisation and the result *)
(* ================================================================== *)

(** C9: in the loop of [generateImage], a part that has both inline data
    and a text feeds both variables: the image data and MIME type are
    overwritten from it and its text is appended to the text so far. *)
Theorem C9_part_with_inline_data_and_text
    (st : Scan.t) (part : Part.t) (i : InlineData.t) (t : string) :
  Part.inlineData part = Some i ->
  Part.text part = Some t ->
  scanStep st part =
  Scan.make (Some (InlineData.data i))
            (JS.or_else (InlineData.mimeType i) "image/png")
            (Scan.textResponse st ++ t).
Proof.
  intros Hi Ht. unfold scanStep. rewrite Hi, Ht.
  destruct (JS.truthy t) eqn:Htruthy; simpl; [reflexivity|].
  apply not_truthy_empty in Htruthy. subst t.
  now rewrite append_nil_r.
Qed.

Lemma C9_part_with_inline_data_and_text_witness :
  scanStep (Scan.make (Some "old") "image/gif" "Here it is: ")
           (Part.make (Some (InlineData.make (Some "image/webp") "QUJD"))
                      (Some "a cat")) =
  Scan.make (Some "QUJD") "image/webp" "Here it is: a cat".
Proof.
  exact (C9_part_with_inline_data_and_text
           (Scan.make (Some "old") "image/gif" "Here it is: ")
           (Part.make (Some (InlineData.make (Some "image/webp") "QUJD"))
                      (Some "a cat"))
           (InlineData.make (Some "image/webp") "QUJD") "a cat"
           eq_refl eq_refl).
Defined.



(** C6: when the upstream answers [generate_image] or [edit_image] with
    a response that has no candidates ([candidates] absent or empty), the
    handler throws an error whose message is "No response generated", and
    the dispatcher returns [isError: true] with a single text part,
    "Error: No response generated", which contains that message. *)
Theorem C6_no_candidates
    (w : World) (request : CallToolRequest) (response : Response.t) :
  image_tool request = true ->
  answer w request = Some (inr response) ->
  Response.candidates response = None
  \/ Response.candidates response = Some [] ->
  snd (dispatch w request) = inl (JS.Error "No response generated")
  /\ snd (callTool w request) =
     ToolResult.make [text "Error: No response generated"] (Some true)
  /\ JS.includes "Error: No response generated" "No response generated"
  /\ JS.toLowerCase "No response generated" = "no response generated".
Proof.
  intros Htool Hans Hnone.
  assert (Hthrow : snd (dispatch w request)
                   = inl (JS.Error "No response generated")).
  { rewrite (snd_dispatch_image w request response Htool Hans).
    unfold contentParts. now destruct Hnone as [-> | ->]. }
  split; [exact Hthrow|]. split; [|split].
  - rewrite snd_callTool, Hthrow. reflexivity.
  - apply (includes_suffix "Error: ").
  - reflexivity.
Qed.

Lemma C6_no_candidates_witness :
  snd (callTool (Sample.world (inr (Response.make (Some []) (inr ""))))
                (generate_image (Sample.generate "a cat" None None))) =
  ToolResult.make [text "Error: No response generated"] (Some true).
Proof.
  exact (proj1 (proj2
    (C6_no_candidates
       (Sample.world (inr (Response.make (Some []) (inr ""))))
       (generate_image (Sample.generate "a cat" None None))
       (Response.make (Some []) (inr ""))
       eq_refl eq_refl (or_intror eq_refl)))).
Defined.

(** The part of C4 that holds: when the scan of [generateImage] finds no
    inline part, the thrown message, and with it the text of the error
    result, includes the accumulated text of the response. *)
Lemma generate_image_no_image_includes_text
    (w : World) (p : GenerateImageParams.t) (response : Response.t)
    (cparts : list Part.t) :
  answer w (generate_image p) = Some (inr response) ->
  snd (contentParts response) = inr cparts ->
  lastInline cparts = None ->
  snd (callTool w (generate_image p)) =
    errorResult ("No image generated. Model response: "
                 ++ concatAll (textParts cparts))
  /\ JS.includes
       ("Error: " ++ "No image generated. Model response: "
        ++ concatAll (textParts cparts))
       (concatAll (textParts cparts)).
Proof.
  intros Hans Hparts Hlast. split.
  - rewrite snd_callTool.
    rewrite (@snd_dispatch_image w (generate_image p) response eq_refl Hans).
    rewrite Hparts. unfold after_scan. now rewrite Hlast.
  - rewrite <- append_assoc. apply includes_suffix.
Qed.

(** For [editImage] the message is the same whatever the response says. *)
Lemma edit_image_no_image_message
    (w : World) (p : EditImageParams.t) (response : Response.t)
    (cparts : list Part.t) :
  answer w (edit_image p) = Some (inr response) ->
  snd (contentParts response) = inr cparts ->
  lastInline cparts = None ->
  snd (callTool w (edit_image p)) = errorResult "No edited image generated".
Proof.
  intros Hans Hparts Hlast.
  rewrite snd_callTool.
  rewrite (@snd_dispatch_image w (edit_image p) response eq_refl Hans).
  rewrite Hparts. unfold after_scan. now rewrite Hlast.
Qed.

(** C4 at a response that only explains a refusal: [generate_image]
    reports the explanation, [edit_image] returns a fixed message from
    which the explanation is gone. *)
Theorem C4_edit_image_drops_refusal_text :
  let w := Sample.world (inr (Sample.respond [Sample.textOnly Sample.refusal])) in
  snd (callTool w (generate_image (Sample.generate "remove him" None None))) =
    ToolResult.make
      [ text ("Error: No image generated. Model response: "
              ++ Sample.refusal) ]
      (Some true)
  /\ snd (callTool w (edit_image (Sample.edit "remove him" [Sample.img "a"] None))) =
    ToolResult.make [text "Error: No edited image generated"] (Some true).
Proof. split; reflexivity. Qed.

(* ================================================================== *)
(** * Saving the image *)
(* ================================================================== *)

(** A run of [generate_image] whose upstream answers with a JPEG and
    whose write to the output path is refused. *)
Example generate_image_write_refused_run :
  callTool (Sample.readonly (inr (Sample.respond [Sample.jpeg])))
           (generate_image
              (Sample.generate "a cat" (Some "/out/cat.png") None)) =
  ( [ EvGenerateContent "gemini-3-pro-image-preview"
        (Some (GenerationConfig.make ["IMAGE"; "TEXT"]
                 (Some (ImageConfig.make (Some AR_1_1) Size_1K)) None))
        [textPart "a cat"];
      EvExistsSync "/out";
      EvWriteFileSync "/out/cat.png" "QUJD" ],
    ToolResult.make
      [ text "Error: EACCES: permission denied, open '/out/cat.png'" ]
      (Some true) ).
Proof. reflexivity. Qed.

(** C3, as stated, fails: it is not true that a call whose upstream
    response yields a usable image and whose write to [outputPath] fails
    still gets a success-shaped result.  In the run above the result has
    [isError: true] and no image part. *)
Lemma C3_write_failure_is_an_error_result :
  ~ (forall (w : World) (request : CallToolRequest) (response : Response.t)
            (cparts : list Part.t) (i : InlineData.t) (path : string),
        image_tool request = true ->
        answer w request = Some (inr response) ->
        snd (contentParts response) = inr cparts ->
        lastInline cparts = Some i ->
        JS.truthy (InlineData.data i) = true ->
        outputPath_of request = Some path ->
        JS.truthy path = true ->
        mkdir_throws w path = false ->
        writeFileSync w path (InlineData.data i) <> None ->
        success_shaped (snd (callTool w request)) = true).
Proof.
  intros H.
  specialize (H (Sample.readonly (inr (Sample.respond [Sample.jpeg])))
                (generate_image
                   (Sample.generate "a cat" (Some "/out/cat.png") None))
                (Sample.respond [Sample.jpeg]) [Sample.jpeg]
                (InlineData.make (Some "image/jpeg") "QUJD") "/out/cat.png"
                eq_refl eq_refl eq_refl eq_refl eq_refl eq_refl eq_refl
                eq_refl).
  rewrite generate_image_write_refused_run in H.
  simpl in H. assert (Hd : false = true) by (apply H; discriminate).
  discriminate.
Qed.

(** C3, amended: for every [generate_image] or [edit_image] call whose
    upstream response yields a usable image and whose write to the
    supplied [outputPath] throws, the thrown value is caught by the
    dispatcher like any other: the result is [isError: true] with a single
    text part, "Error: " followed by the message of the write failure, and
    holds no image part. *)
Theorem C3_write_failure_caught_by_dispatcher
    (w : World) (request : CallToolRequest) (response : Response.t)
    (cparts : list Part.t) (i : InlineData.t) (path : string)
    (e : JS.Thrown) :
  image_tool request = true ->
  answer w request = Some (inr response) ->
  snd (contentParts response) = inr cparts ->
  lastInline cparts = Some i ->
  JS.truthy (InlineData.data i) = true ->
  outputPath_of request = Some path ->
  JS.truthy path = true ->
  mkdir_throws w path = false ->
  writeFileSync w path (InlineData.data i) = Some e ->
  snd (callTool w request) =
    ToolResult.make [text ("Error: " ++ JS.message_of e)] (Some true)
  /\ success_shaped (snd (callTool w request)) = false.
Proof.
  intros Htool Hans Hparts Hlast Hdata Hout Hpath Hdir Hwrite.
  assert (Hres : snd (callTool w request) = errorResult (JS.message_of e)).
  { rewrite snd_callTool, (snd_dispatch_image w request response Htool Hans), Hparts.
    unfold after_scan. rewrite Hlast, Hdata, Hout.
    rewrite (snd_saveToFile_write w path _ Hpath Hdir), Hwrite. reflexivity. }
  rewrite Hres. split; reflexivity.
Qed.

Lemma C3_write_failure_caught_by_dispatcher_witness :
  snd (callTool (Sample.readonly (inr (Sample.respond [Sample.jpeg])))
         (edit_image
            (Sample.edit "make it blue" [Sample.img "a"]
                         (Some "/out/blue.png")))) =
  ToolResult.make
    [ text "Error: EACCES: permission denied, open '/out/blue.png'" ]
    (Some true).
Proof.
  exact (proj1
    (C3_write_failure_caught_by_dispatcher
       (Sample.readonly (inr (Sample.respond [Sample.jpeg])))
       (edit_image
          (Sample.edit "make it blue" [Sample.img "a"]
                       (Some "/out/blue.png")))
       (Sample.respond [Sample.jpeg]) [Sample.jpeg]
       (InlineData.make (Some "image/jpeg") "QUJD") "/out/blue.png"
       (JS.Error "EACCES: permission denied, open '/out/blue.png'")
       eq_refl eq_refl eq_refl eq_refl eq_refl eq_refl eq_refl eq_refl
       eq_refl)).
Defined.

(** When nothing is to be saved, or the saving goes through, a usable
    image gives the success result. *)
Lemma image_tool_success
    (w : World) (request : CallToolRequest) (response : Response.t)
    (cparts : list Part.t) (i : InlineData.t) :
  image_tool request = true ->
  answer w request = Some (inr response) ->
  snd (contentParts response) = inr cparts ->
  lastInline cparts = Some i ->
  JS.truthy (InlineData.data i) = true ->
  snd (saveToFile w (outputPath_of request) (InlineData.data i)) = inr tt ->
  snd (callTool w request) =
    ToolResult.make
      [ image (InlineData.data i)
              (JS.or_else (InlineData.mimeType i) "image/png");
        text (statusText request) ]
      None.
Proof.
  intros Htool Hans Hparts Hlast Hdata Hsave.
  rewrite snd_callTool, (snd_dispatch_image w request response Htool Hans), Hparts.
  unfold after_scan. now rewrite Hlast, Hdata, Hsave.
Qed.

(* ================================================================== *)
(** * The MIME type of the returned image *)
(* ================================================================== *)

(** The winning part decides alone: a MIME type supplied by an earlier
    inline part is not kept when the last inline part has none. *)
Example mimeType_of_earlier_part_not_kept :
  snd (callTool
         (Sample.world
            (inr (Sample.respond
                    [ Sample.inlinePart (Some "image/jpeg") "AAAA";
                      Sample.inlinePart None "BBBB" ])))
         (generate_image (Sample.generate "a cat" None None))) =
  ToolResult.make
    [ image "BBBB" "image/png"; text "Image generated successfully (1K)" ]
    None.
Proof. reflexivity. Qed.

(** C10, as stated, fails: it is not true that the MIME type of the
    returned image part is that of the last inline part that supplied one,
    with "image/png" only when no inline part carries one.  In the run
    above the first inline part supplies "image/jpeg", the last one
    supplies none, and the returned MIME type is "image/png". *)
Lemma C10_last_supplied_mimeType_not_returned :
  ~ (forall (w : World) (request : CallToolRequest) (response : Response.t)
            (cparts : list Part.t) (d m : string) (rest : list ContentItem),
        image_tool request = true ->
        answer w request = Some (inr response) ->
        snd (contentParts response) = inr cparts ->
        ToolResult.isError (snd (callTool w request)) = None ->
        ToolResult.content (snd (callTool w request)) = image d m :: rest ->
        m = JS.default (lastSuppliedMimeType cparts) "image/png").
Proof.
  intros H.
  specialize (H (Sample.world
                   (inr (Sample.respond
                           [ Sample.inlinePart (Some "image/jpeg") "AAAA";
                             Sample.inlinePart None "BBBB" ])))
                (generate_image (Sample.generate "a cat" None None))
                (Sample.respond
                   [ Sample.inlinePart (Some "image/jpeg") "AAAA";
                     Sample.inlinePart None "BBBB" ])
                [ Sample.inlinePart (Some "image/jpeg") "AAAA";
                  Sample.inlinePart None "BBBB" ]
                "BBBB" "image/png"
                [text "Image generated successfully (1K)"]
                eq_refl eq_refl eq_refl eq_refl eq_refl).
  discriminate.
Qed.

(** C10, amended: every [generate_image] or [edit_image] call that
    succeeds got a response whose first candidate has a last inline part,
    the winning one, whose data is returned; the MIME type of the returned
    image part is the MIME type of that winning part when it supplies a
    (non-empty) one, and "image/png" whenever it does not, also when an
    earlier inline part supplied one. *)
Theorem C10_returned_mimeType (w : World) (request : CallToolRequest) :
  image_tool request = true ->
  ToolResult.isError (snd (callTool w request)) = None ->
  exists (response : Response.t) (cparts : list Part.t)
         (win : InlineData.t) (mime : string),
    answer w request = Some (inr response)
    /\ snd (contentParts response) = inr cparts
    /\ lastInline cparts = Some win
    /\ ToolResult.content (snd (callTool w request)) =
       [ image (InlineData.data win) mime; text (statusText request) ]
    /\ (forall m, InlineData.mimeType win = Some m ->
                  JS.truthy m = true -> mime = m)
    /\ (JS.truthy_opt (InlineData.mimeType win) = false ->
        mime = "image/png").
Proof.
  intros Htool Hok.
  destruct (answer_image_tool w request Htool) as [[e | response] Hans].
  { rewrite snd_callTool, (snd_dispatch_thrown w request e Hans) in Hok.
    discriminate. }
  rewrite snd_callTool, (snd_dispatch_image w request response Htool Hans) in *.
  destruct (snd (contentParts response)) as [e | cparts] eqn:Hparts;
    [discriminate|].
  unfold after_scan in *.
  destruct (lastInline cparts) as [win|] eqn:Hlast; [|discriminate].
  destruct (JS.truthy (InlineData.data win)); [|discriminate].
  destruct (snd (saveToFile w _ _)); [discriminate|].
  exists response, cparts, win,
    (JS.or_else (InlineData.mimeType win) "image/png").
  split; [exact Hans|]. split; [exact Hparts|]. split; [exact Hlast|].
  split; [reflexivity|]. split.
  - intros m Hm Ht. rewrite Hm. simpl. now rewrite Ht.
  - intros Hf. destruct (InlineData.mimeType win) as [m|]; simpl in *;
      [now rewrite Hf | reflexivity].
Qed.

Lemma C10_returned_mimeType_witness :
  exists (response : Response.t) (cparts : list Part.t)
         (win : InlineData.t) (mime : string),
    let w :=
      Sample.world
        (inr (Sample.respond
                [ Sample.inlinePart (Some "image/jpeg") "AAAA";
                  Sample.textOnly "Here is a second version.";
                  Sample.inlinePart None "BBBB" ])) in
    let request :=
      edit_image (Sample.edit "make it blue" [Sample.img "a"] None) in
    answer w request = Some (inr response)
    /\ snd (contentParts response) = inr cparts
    /\ lastInline cparts = Some win
    /\ ToolResult.content (snd (callTool w request)) =
       [ image (InlineData.data win) mime; text (statusText request) ]
    /\ (forall m, InlineData.mimeType win = Some m ->
                  JS.truthy m = true -> mime = m)
    /\ (JS.truthy_opt (InlineData.mimeType win) = false ->
        mime = "image/png").
Proof.
  exact (C10_returned_mimeType
           (Sample.world
              (inr (Sample.respond
                      [ Sample.inlinePart (Some "image/jpeg") "AAAA";
                        Sample.textOnly "Here is a second version.";
                        Sample.inlinePart None "BBBB" ])))
           (edit_image (Sample.edit "make it blue" [Sample.img "a"] None))
           eq_refl eq_refl).
Defined.

(* ================================================================== *)
(** * Traces of the handlers *)
(* ================================================================== *)

Section Traces.

Variable w : World.

Lemma fst_contentParts (response : Response.t) :
  fst (contentParts response) = [].
Proof.
  unfold contentParts.
  destruct (Response.candidates response) as [[|c ?]|]; try reflexivity.
  destruct (Candidate.content c) as [ct|]; try reflexivity.
  destruct (Content.parts ct); reflexivity.
Qed.

Lemma saveToFile_skipped (o : option string) (d : string) :
  JS.truthy_opt o = false -> saveToFile w o d = ret tt.
Proof.
  destruct o as [p|]; simpl; [|reflexivity].
  intros Hp. now rewrite Hp.
Qed.

Lemma fst_saveToFile (path d : string) :
  JS.truthy path = true ->
  fst (saveToFile w (Some path) d) = saveTrace w path d.
Proof.
  intros Hp. unfold saveToFile, saveTrace, mkdir_throws. rewrite Hp.
  rewrite fst_bind.
  destruct (JS.truthy (dirname w path)); simpl; [|reflexivity].
  destruct (existsSync w (dirname w path)); simpl; [reflexivity|].
  destruct (mkdirSync w (dirname w path)); reflexivity.
Qed.

Lemma snd_saveToFile_mkdir (path d : string) (e : JS.Thrown) :
  JS.truthy path = true ->
  JS.truthy (dirname w path) = true ->
  existsSync w (dirname w path) = false ->
  mkdirSync w (dirname w path) = Some e ->
  snd (saveToFile w (Some path) d) = inl e.
Proof.
  intros Hp Hdir Hex Hmk. unfold saveToFile. rewrite Hp, Hdir.
  rewrite snd_bind. simpl. rewrite Hex. simpl. now rewrite Hmk.
Qed.

(** The calls of an image tool: the upstream call, then those of the save
    block when the scan ended with usable image data. *)
Lemma fst_dispatch_image (request : CallToolRequest) (ev : Event) :
  image_tool request = true ->
  invocation request = Some ev ->
  fst (dispatch w request) =
  ev :: match answer w request with
        | Some (inr response) =>
            match snd (contentParts response) with
            | inr cparts =>
                match lastInline cparts with
                | Some i =>
                    if JS.truthy (InlineData.data i)
                    then fst (saveToFile w (outputPath_of request)
                                         (InlineData.data i))
                    else []
                | None => []
                end
            | inl _ => []
            end
        | _ => []
        end.
Proof.
  destruct request as [p | p | p | name]; simpl; try discriminate;
    intros _ [= <-]; unfold answer; simpl.
  - unfold generateImage. rewrite fst_bind. simpl. f_equal.
    destruct (generateContent w _ _ _) as [e | response]; [reflexivity|].
    rewrite fst_bind, fst_contentParts. simpl.
    destruct (snd (contentParts response)) as [e | cparts]; [reflexivity|].
    rewrite scan_imageData.
    destruct (lastInline cparts) as [i|]; simpl; [|reflexivity].
    destruct (JS.truthy (InlineData.data i)); simpl; [|reflexivity].
    rewrite fst_bind.
    destruct (snd (saveToFile w _ _)); simpl; now rewrite app_nil_r.
  - unfold editImage. rewrite fst_bind. simpl. f_equal.
    destruct (generateContent w _ _ _) as [e | response]; [reflexivity|].
    rewrite fst_bind, fst_contentParts. simpl.
    destruct (snd (contentParts response)) as [e | cparts]; [reflexivity|].
    rewrite editScan_scan. simpl. rewrite scan_imageData.
    destruct (lastInline cparts) as [i|]; simpl; [|reflexivity].
    destruct (JS.truthy (InlineData.data i)); simpl; [|reflexivity].
    rewrite fst_bind.
    destruct (snd (saveToFile w _ _)); simpl; now rewrite app_nil_r.
Qed.

Lemma fst_dispatch_describe (p : DescribeImageParams.t) (ev : Event) :
  invocation (describe_image p) = Some ev ->
  fst (dispatch w (describe_image p)) = [ev].
Proof.
  simpl. intros [= <-]. unfold describeImage. rewrite fst_bind. simpl.
  destruct (generateContent w _ _ _) as [e | response]; [reflexivity|].
  now destruct (Response.text response).
Qed.

Lemma invocation_image_tool (request : CallToolRequest) :
  image_tool request = true -> exists ev, invocation request = Some ev.
Proof.
  destruct request; simpl; try discriminate; intros _; eexists; reflexivity.
Qed.

(** Membership in the calls of the save block. *)
Lemma in_saveToFile (o : option string) (d : string) (e : Event) :
  In e (fst (saveToFile w o d)) ->
  exists path,
    o = Some path /\ JS.truthy path = true /\ In e (saveTrace w path d).
Proof.
  destruct o as [path|]; [|intros []].
  destruct (JS.truthy path) eqn:Hp.
  - rewrite (fst_saveToFile path d Hp). intros Hin. now exists path.
  - rewrite saveToFile_skipped by (simpl; exact Hp). intros [].
Qed.

Lemma in_saveTrace (path d : string) (e : Event) :
  In e (saveTrace w path d) ->
  (e = EvExistsSync (dirname w path) /\ JS.truthy (dirname w path) = true)
  \/ (e = EvMkdirSync (dirname w path)
      /\ JS.truthy (dirname w path) = true
      /\ existsSync w (dirname w path) = false)
  \/ (e = EvWriteFileSync path d /\ mkdir_throws w path = false).
Proof.
  unfold saveTrace. intros Hin. apply in_app_or in Hin.
  destruct Hin as [Hin | Hin].
  - destruct (JS.truthy (dirname w path)); [|destruct Hin].
    destruct Hin as [<- | Hin]; [now left|].
    destruct (existsSync w (dirname w path)); [destruct Hin|].
    destruct Hin as [<- | []]. right; left. repeat split.
  - destruct (mkdir_throws w path); [destruct Hin|].
    destruct Hin as [<- | []]. right; right. now split.
Qed.

(** What an image tool's trace holds besides the upstream call. *)
Lemma in_trace_image (request : CallToolRequest) (e : Event) :
  image_tool request = true ->
  In e (fst (callTool w request)) ->
  is_upstream e = false ->
  exists response cparts i,
    answer w request = Some (inr response)
    /\ snd (contentParts response) = inr cparts
    /\ lastInline cparts = Some i
    /\ JS.truthy (InlineData.data i) = true
    /\ In e (fst (saveToFile w (outputPath_of request) (InlineData.data i))).
Proof.
  intros Htool Hin Hfs.
  destruct (invocation_image_tool request Htool) as [ev Hev].
  rewrite fst_callTool, (fst_dispatch_image request ev Htool Hev) in Hin.
  destruct Hin as [<- | Hin].
  { destruct request; simpl in Hev; try discriminate;
      injection Hev as <-; discriminate. }
  destruct (answer w request) as [[e0 | response]|]; try destruct Hin.
  destruct (snd (contentParts response)) as [e0 | cparts] eqn:Hparts;
    [destruct Hin|].
  destruct (lastInline cparts) as [i|] eqn:Hlast; [|destruct Hin].
  destruct (JS.truthy (InlineData.data i)) eqn:Hdata; [|destruct Hin].
  now exists response, cparts, i.
Qed.

End Traces.

(* ================================================================== *)
(** * Further properties: results and external calls *)
(* ================================================================== *)

Lemma callTool_pair (w : World) (request : CallToolRequest) :
  callTool w request = (fst (callTool w request), snd (callTool w request)).
Proof. apply surjective_pairing. Qed.

Lemma saveToFile_calls (w : World) (o : option string) (d : string) :
  forallb is_fs (fst (saveToFile w o d)) = true
  /\ List.length (fst (saveToFile w o d)) <= 3
  /\ List.length (filter is_write (fst (saveToFile w o d))) <= 1.
Proof.
  destruct o as [path|]; [|simpl; repeat constructor].
  destruct (JS.truthy path) eqn:Hp.
  - rewrite (fst_saveToFile w path d Hp). unfold saveTrace.
    destruct (JS.truthy (dirname w path)), (existsSync w (dirname w path)),
      (mkdir_throws w path); simpl; repeat constructor.
  - rewrite saveToFile_skipped by (simpl; exact Hp).
    simpl; repeat constructor.
Qed.

(** X1: the handler never lets a failure through and returns one of three
    shapes: an error result, [isError: true] with one text part that starts
    with "Error: "; for [generate_image] and [edit_image] an image part
    followed by the status text, [isError] absent; for [describe_image] one
    text part, [isError] absent. *)
Theorem callTool_result_shape (w : World) (request : CallToolRequest) :
  (exists message,
      snd (callTool w request) =
      ToolResult.make [text ("Error: " ++ message)] (Some true))
  \/ (image_tool request = true
      /\ exists data mime,
           snd (callTool w request) =
           ToolResult.make [image data mime; text (statusText request)] None)
  \/ (exists p t,
         request = describe_image p
         /\ snd (callTool w request) = ToolResult.make [text t] None).
Proof.
  rewrite snd_callTool.
  destruct (image_tool request) eqn:Htool.
  - destruct (answer_image_tool w request Htool) as [[e | response] Hans].
    + rewrite (snd_dispatch_thrown w request e Hans). left. now eexists.
    + rewrite (snd_dispatch_image w request response Htool Hans).
      destruct (snd (contentParts response)) as [e | cparts];
        [left; now eexists|].
      unfold after_scan.
      destruct (lastInline cparts) as [i|]; [|left; now eexists].
      destruct (JS.truthy (InlineData.data i)); [|left; now eexists].
      destruct (snd (saveToFile w _ _)); [left; now eexists|].
      right; left. split; [reflexivity|]. now do 2 eexists.
  - destruct request as [p | p | p | name]; try discriminate; simpl.
    + unfold describeImage. rewrite snd_bind. simpl.
      destruct (generateContent w _ _ _) as [e | response];
        [left; now eexists|].
      destruct (Response.text response) as [e | t]; [left; now eexists|].
      right; right. now exists p, t.
    + left. now eexists.
Qed.

(** X2: a call of one of the three tools makes exactly one upstream
    invocation and makes it first; whatever follows is a call to [fs], at
    most three of them and at most one write.  A call of an unknown tool
    makes no external call at all. *)
Theorem callTool_trace_shape (w : World) (request : CallToolRequest) :
  match request with
  | other_tool _ => fst (callTool w request) = []
  | _ =>
      exists ev rest,
        fst (callTool w request) = ev :: rest
        /\ invocation request = Some ev
        /\ forallb is_fs rest = true
        /\ List.length rest <= 3
        /\ List.length (filter is_write rest) <= 1
  end.
Proof.
  rewrite fst_callTool.
  assert (Himg : forall request ev,
             image_tool request = true -> invocation request = Some ev ->
             exists ev rest,
               fst (dispatch w request) = ev :: rest
               /\ invocation request = Some ev
               /\ forallb is_fs rest = true
               /\ List.length rest <= 3
               /\ List.length (filter is_write rest) <= 1).
  { intros r ev Htool Hev.
    assert (Hnil : forallb is_fs [] = true
                   /\ @List.length Event [] <= 3
                   /\ List.length (filter is_write []) <= 1)
      by (simpl; repeat constructor).
    eexists ev, _.
    split; [apply (fst_dispatch_image w r ev Htool Hev)|].
    split; [exact Hev|].
    destruct (answer w r) as [[e | response]|]; [exact Hnil| |exact Hnil].
    destruct (snd (contentParts response)) as [e | cparts]; [exact Hnil|].
    destruct (lastInline cparts) as [i|]; [|exact Hnil].
    destruct (JS.truthy (InlineData.data i)); [|exact Hnil].
    apply saveToFile_calls. }
  destruct request as [p | p | p | name].
  - apply (Himg (generate_image p) _ eq_refl eq_refl).
  - apply (Himg (edit_image p) _ eq_refl eq_refl).
  - eexists _, []. split; [now apply fst_dispatch_describe|].
    simpl; repeat constructor.
  - reflexivity.
Qed.

(** X3: when the upstream call itself throws, the handler makes no other
    external call (no retry, no file access) and returns the error result
    with the message of the thrown value. *)
Theorem upstream_failure_propagates
    (w : World) (request : CallToolRequest) (ev : Event) (e : JS.Thrown) :
  invocation request = Some ev ->
  answer w request = Some (inl e) ->
  callTool w request =
  ([ev], ToolResult.make [text ("Error: " ++ JS.message_of e)] (Some true)).
Proof.
  intros Hev Hans. rewrite callTool_pair. f_equal.
  - rewrite fst_callTool. destruct request as [p | p | p | name].
    + rewrite (fst_dispatch_image w (generate_image p) ev eq_refl Hev).
      now rewrite Hans.
    + rewrite (fst_dispatch_image w (edit_image p) ev eq_refl Hev).
      now rewrite Hans.
    + now apply fst_dispatch_describe.
    + discriminate.
  - rewrite snd_callTool. now rewrite (snd_dispatch_thrown w request e Hans).
Qed.

Lemma upstream_failure_propagates_witness :
  callTool (Sample.world (inl Scenario.quota))
           (describe_image (DescribeImageParams.make [Sample.img "a"] None None)) =
  ( [ EvGenerateContent MODELS.PRO None
        [inlineDataPart "image/png" "a";
         textPart "Describe this image in detail."] ],
    ToolResult.make
      [text "Error: [429 Too Many Requests] Resource has been exhausted"]
      (Some true) ).
Proof.
  exact (upstream_failure_propagates
           (Sample.world (inl Scenario.quota))
           (describe_image (DescribeImageParams.make [Sample.img "a"] None None))
           _ Scenario.quota eq_refl eq_refl).
Defined.

(* ================================================================== *)
(** * Further properties: the file system *)
(* ================================================================== *)

(** X4: the only file a tool call ever writes is the image it returns,
    at the path the caller gave: a write of [data] to [path] in the trace
    means that [path] is the request's (non-empty) [outputPath], that the
    upstream answered, and that [data] is the non-empty data of the last
    inline part of the first candidate. *)
Theorem writes_only_returned_image
    (w : World) (request : CallToolRequest) (path data : string) :
  In (EvWriteFileSync path data) (fst (callTool w request)) ->
  outputPath_of request = Some path
  /\ JS.truthy path = true
  /\ image_tool request = true
  /\ exists response cparts i,
       answer w request = Some (inr response)
       /\ snd (contentParts response) = inr cparts
       /\ lastInline cparts = Some i
       /\ InlineData.data i = data
       /\ JS.truthy data = true.
Proof.
  intros Hin.
  destruct (image_tool request) eqn:Htool.
  - destruct (in_trace_image w request _ Htool Hin eq_refl)
      as (response & cparts & i & Hans & Hparts & Hlast & Hdata & Hsave).
    destruct (in_saveToFile w _ _ _ Hsave) as (p & Hout & Hp & Htrace).
    destruct (in_saveTrace w _ _ _ Htrace)
      as [[Heq _] | [[Heq _] | [Heq _]]]; try discriminate.
    injection Heq as -> ->.
    repeat split; try assumption.
    exists response, cparts, i. now repeat split.
  - rewrite fst_callTool in Hin.
    destruct request as [p | p | p | name]; try discriminate.
    + rewrite (fst_dispatch_describe w p _ eq_refl) in Hin.
      destruct Hin as [Heq | []]. discriminate.
    + destruct Hin.
Qed.

Lemma writes_only_returned_image_witness :
  outputPath_of
    (generate_image (Sample.generate "a cat" (Some "/out/cat.png") None))
  = Some "/out/cat.png".
Proof.
  exact (proj1
    (writes_only_returned_image
       (Sample.world (inr (Sample.respond [Sample.jpeg])))
       (generate_image (Sample.generate "a cat" (Some "/out/cat.png") None))
       "/out/cat.png" "QUJD"
       (or_intror (or_intror (or_introl eq_refl))))).
Defined.

(** X5: a directory is created only for saving: a [mkdirSync] in the
    trace is for the directory of the request's [outputPath], and only
    after [existsSync] said that the directory does not exist. *)
Theorem mkdir_only_for_missing_directory
    (w : World) (request : CallToolRequest) (dir : string) :
  In (EvMkdirSync dir) (fst (callTool w request)) ->
  exists path,
    outputPath_of request = Some path
    /\ JS.truthy path = true
    /\ dir = dirname w path
    /\ JS.truthy dir = true
    /\ existsSync w dir = false
    /\ In (EvExistsSync dir) (fst (callTool w request)).
Proof.
  intros Hin.
  destruct (image_tool request) eqn:Htool.
  - destruct (in_trace_image w request _ Htool Hin eq_refl)
      as (response & cparts & i & Hans & Hparts & Hlast & Hdata & Hsave).
    destruct (in_saveToFile w _ _ _ Hsave) as (p & Hout & Hp & Htrace).
    destruct (in_saveTrace w _ _ _ Htrace)
      as [[Heq _] | [[Heq [Hdir Hex]] | [Heq _]]]; try discriminate.
    injection Heq as ->.
    exists p. repeat split; try assumption.
    destruct (invocation_image_tool request Htool) as [ev Hev].
    rewrite fst_callTool, (fst_dispatch_image w request ev Htool Hev).
    rewrite Hans, Hparts, Hlast, Hdata, Hout, (fst_saveToFile w p _ Hp).
    right. unfold saveTrace. rewrite Hdir. now left.
  - rewrite fst_callTool in Hin.
    destruct request as [p | p | p | name]; try discriminate.
    + rewrite (fst_dispatch_describe w p _ eq_refl) in Hin.
      destruct Hin as [Heq | []]. discriminate.
    + destruct Hin.
Qed.

Lemma mkdir_only_for_missing_directory_witness :
  exists path,
    let w := Scenario.freshDir (inr (Sample.respond [Sample.jpeg])) in
    let request :=
      edit_image (Sample.edit "make it blue" [Sample.img "a"]
                              (Some "/new/out/blue.png")) in
    outputPath_of request = Some path
    /\ JS.truthy path = true
    /\ "/new/out" = dirname w path
    /\ JS.truthy "/new/out" = true
    /\ existsSync w "/new/out" = false
    /\ In (EvExistsSync "/new/out") (fst (callTool w request)).
Proof.
  exact (mkdir_only_for_missing_directory
           (Scenario.freshDir (inr (Sample.respond [Sample.jpeg])))
           (edit_image (Sample.edit "make it blue" [Sample.img "a"]
                                    (Some "/new/out/blue.png")))
           "/new/out"
           (or_intror (or_intror (or_introl eq_refl)))).
Defined.

(** X6: when the directory of [outputPath] is missing and creating it
    throws, the image is not written: the calls are the upstream
    invocation, the existence test and the failed creation, and the result
    is the error result with the message of that failure. *)
Theorem mkdir_failure_prevents_write
    (w : World) (request : CallToolRequest) (ev : Event)
    (response : Response.t) (cparts : list Part.t) (i : InlineData.t)
    (path : string) (e : JS.Thrown) :
  image_tool request = true ->
  invocation request = Some ev ->
  answer w request = Some (inr response) ->
  snd (contentParts response) = inr cparts ->
  lastInline cparts = Some i ->
  JS.truthy (InlineData.data i) = true ->
  outputPath_of request = Some path ->
  JS.truthy path = true ->
  JS.truthy (dirname w path) = true ->
  existsSync w (dirname w path) = false ->
  mkdirSync w (dirname w path) = Some e ->
  callTool w request =
  ( [ev; EvExistsSync (dirname w path); EvMkdirSync (dirname w path)],
    ToolResult.make [text ("Error: " ++ JS.message_of e)] (Some true) ).
Proof.
  intros Htool Hev Hans Hparts Hlast Hdata Hout Hp Hdir Hex Hmk.
  rewrite callTool_pair. f_equal.
  - rewrite fst_callTool, (fst_dispatch_image w request ev Htool Hev).
    rewrite Hans, Hparts, Hlast, Hdata, Hout, (fst_saveToFile w path _ Hp).
    unfold saveTrace, mkdir_throws. now rewrite Hdir, Hex, Hmk.
  - rewrite snd_callTool, (snd_dispatch_image w request response Htool Hans).
    rewrite Hparts. unfold after_scan. rewrite Hlast, Hdata, Hout.
    now rewrite (snd_saveToFile_mkdir w path _ e Hp Hdir Hex Hmk).
Qed.

Lemma mkdir_failure_prevents_write_witness :
  callTool (Scenario.lockedParent (inr (Sample.respond [Sample.jpeg])))
           (generate_image
              (Sample.generate "a cat" (Some "/locked/out/cat.png") None)) =
  ( [ EvGenerateContent MODELS.PRO
        (Some (generationConfig_generate MODELS.PRO AR_1_1 Size_1K))
        [textPart "a cat"];
      EvExistsSync "/locked/out"; EvMkdirSync "/locked/out" ],
    ToolResult.make
      [text "Error: EACCES: permission denied, mkdir '/locked/out'"]
      (Some true) ).
Proof.
  exact (mkdir_failure_prevents_write
           (Scenario.lockedParent (inr (Sample.respond [Sample.jpeg])))
           (generate_image
              (Sample.generate "a cat" (Some "/locked/out/cat.png") None))
           _ (Sample.respond [Sample.jpeg]) [Sample.jpeg]
           (InlineData.make (Some "image/jpeg") "QUJD")
           "/locked/out/cat.png"
           (JS.Error "EACCES: permission denied, mkdir '/locked/out'")
           eq_refl eq_refl eq_refl eq_refl eq_refl eq_refl eq_refl eq_refl
           eq_refl eq_refl eq_refl).
Defined.

(** X7: when the upstream yields a usable image, an [outputPath] was
    given and neither the creation of its directory nor the write throws,
    the calls are the upstream invocation followed by those of the save
    block, ending with the write of the image data to [outputPath]; the
    result is the image part and a status text that names the size and
    ends with the path. *)
Theorem save_then_success
    (w : World) (request : CallToolRequest) (ev : Event)
    (response : Response.t) (cparts : list Part.t) (i : InlineData.t)
    (path : string) :
  image_tool request = true ->
  invocation request = Some ev ->
  answer w request = Some (inr response) ->
  snd (contentParts response) = inr cparts ->
  lastInline cparts = Some i ->
  JS.truthy (InlineData.data i) = true ->
  outputPath_of request = Some path ->
  JS.truthy path = true ->
  mkdir_throws w path = false ->
  writeFileSync w path (InlineData.data i) = None ->
  let dir := dirname w path in
  callTool w request =
  ( (ev :: (if JS.truthy dir
            then EvExistsSync dir
                 :: (if existsSync w dir then [] else [EvMkdirSync dir])
            else [])
        ++ [EvWriteFileSync path (InlineData.data i)])%list,
    ToolResult.make
      [ image (InlineData.data i)
              (JS.or_else (InlineData.mimeType i) "image/png");
        text ("Image "
              ++ match request with
                 | generate_image _ => "generated"
                 | _ => "edited"
                 end
              ++ " (" ++ ImageSize_str (imageSize_of request)
              ++ ") and saved to: " ++ path) ]
      None ).
Proof.
  intros Htool Hev Hans Hparts Hlast Hdata Hout Hp Hdir Hwrite dir.
  rewrite callTool_pair. f_equal.
  - rewrite fst_callTool, (fst_dispatch_image w request ev Htool Hev).
    rewrite Hans, Hparts, Hlast, Hdata, Hout, (fst_saveToFile w path _ Hp).
    unfold saveTrace. now rewrite Hdir.
  - rewrite snd_callTool, (snd_dispatch_image w request response Htool Hans).
    rewrite Hparts. unfold after_scan. rewrite Hlast, Hdata, Hout.
    rewrite (snd_saveToFile_write w path _ Hp Hdir), Hwrite. simpl.
    unfold statusText. rewrite Hout. simpl. now rewrite Hp.
Qed.

Lemma save_then_success_witness :
  callTool (Scenario.freshDir (inr (Sample.respond [Sample.jpeg])))
           (edit_image (Sample.edit "make it blue" [Sample.img "a"]
                                    (Some "/new/out/blue.png"))) =
  ( [ EvGenerateContent MODELS.PRO
        (Some (generationConfig_edit MODELS.PRO Size_1K))
        [inlineDataPart "image/png" "a"; textPart "make it blue"];
      EvExistsSync "/new/out"; EvMkdirSync "/new/out";
      EvWriteFileSync "/new/out/blue.png" "QUJD" ],
    ToolResult.make
      [ image "QUJD" "image/jpeg";
        text "Image edited (1K) and saved to: /new/out/blue.png" ]
      None ).
Proof.
  exact (save_then_success
           (Scenario.freshDir (inr (Sample.respond [Sample.jpeg])))
           (edit_image (Sample.edit "make it blue" [Sample.img "a"]
                                    (Some "/new/out/blue.png")))
           _ (Sample.respond [Sample.jpeg]) [Sample.jpeg]
           (InlineData.make (Some "image/jpeg") "QUJD")
           "/new/out/blue.png"
           eq_refl eq_refl eq_refl eq_refl eq_refl eq_refl eq_refl eq_refl
           eq_refl eq_refl).
Defined.

(* ================================================================== *)
(** * Further properties: the request *)
(* ================================================================== *)

(** X8: an empty string as [outputPath] is the same as no [outputPath]:
    same external calls, same result, nothing saved. *)
Theorem empty_outputPath_same_as_absent
    (w : World) (request : CallToolRequest) :
  callTool w (withOutputPath (Some "") request) =
  callTool w (withOutputPath None request).
Proof. destruct request; reflexivity. Qed.

(** X9: passing a default explicitly is the same as leaving the property
    out: the PRO model, aspect ratio "1:1" and size "1K" for the image
    tools, the PRO model and the prompt "Describe this image in detail."
    for [describe_image]. *)
Theorem explicit_defaults_same_as_omitted
    (w : World) (request : CallToolRequest) :
  callTool w (withDefaults request) = callTool w request.
Proof. destruct request; reflexivity. Qed.

(** X10: for a model other than PRO the requested [imageSize] never
    reaches the upstream: the upstream invocation is the same whatever size
    is asked for. *)
Theorem imageSize_not_sent_to_other_models
    (w : World) (request : CallToolRequest) (s : option ImageSize) :
  model_of request <> MODELS.PRO ->
  upstream_calls (fst (callTool w (withImageSize s request))) =
  upstream_calls (fst (callTool w request)).
Proof.
  intros Hmodel. rewrite !upstream_calls_callTool.
  destruct request as [p | p | p | name]; simpl in *; try reflexivity.
  - unfold generationConfig_generate.
    destruct (String.eqb_spec
                (JS.default (GenerateImageParams.model p) DEFAULT_MODEL)
                MODELS.PRO) as [Heq | _]; [contradiction | reflexivity].
  - unfold generationConfig_edit.
    destruct (String.eqb_spec
                (JS.default (EditImageParams.model p) DEFAULT_MODEL)
                MODELS.PRO) as [Heq | _]; [contradiction | reflexivity].
Qed.

Lemma imageSize_not_sent_to_other_models_witness :
  upstream_calls
    (fst (callTool (Sample.world (inr (Sample.respond [Sample.jpeg])))
            (withImageSize (Some Size_4K)
               (edit_image
                  (EditImageParams.make "make it blue" [Sample.img "a"]
                     (Some MODELS.FLASH) None None))))) =
  upstream_calls
    (fst (callTool (Sample.world (inr (Sample.respond [Sample.jpeg])))
            (edit_image
               (EditImageParams.make "make it blue" [Sample.img "a"]
                  (Some MODELS.FLASH) None None)))).
Proof.
  refine (imageSize_not_sent_to_other_models
            (Sample.world (inr (Sample.respond [Sample.jpeg])))
            (edit_image
               (EditImageParams.make "make it blue" [Sample.img "a"]
                  (Some MODELS.FLASH) None None))
            (Some Size_4K) _).
  discriminate.
Defined.


(* ================================================================== *)
(** * Further properties: the response *)
(* ================================================================== *)

Lemma answer_withAnswer (w : World) (request : CallToolRequest)
    (ev : Event) (r : JS.Thrown + Response.t) :
  invocation request = Some ev ->
  answer (withAnswer w r) request = Some r.
Proof.
  unfold answer.
  destruct request; simpl; try discriminate; intros _; reflexivity.
Qed.

Lemma textParts_app (l1 l2 : list Part.t) :
  textParts (l1 ++ l2) = (textParts l1 ++ textParts l2)%list.
Proof.
  induction l1 as [|part rest IH]; simpl; [reflexivity|].
  destruct (Part.text part); simpl; now rewrite IH.
Qed.

Lemma concatAll_app (l1 l2 : list string) :
  concatAll (l1 ++ l2) = concatAll l1 ++ concatAll l2.
Proof.
  induction l1 as [|s rest IH]; simpl; [reflexivity|].
  now rewrite IH, append_assoc.
Qed.

(** X12: the image tools look at the first candidate only and never call
    [response.text()]: responses with the same first candidate give the
    same calls and the same result, whatever the other candidates hold. *)
Theorem image_tools_read_first_candidate_only
    (w : World) (request : CallToolRequest) (c : Candidate.t)
    (rest rest' : list Candidate.t) (t t' : JS.Thrown + string) :
  image_tool request = true ->
  callTool (withAnswer w (inr (Response.make (Some (c :: rest)) t))) request =
  callTool (withAnswer w (inr (Response.make (Some (c :: rest')) t'))) request.
Proof.
  destruct request as [p | p | p | name]; try discriminate;
    intros _; reflexivity.
Qed.

Lemma image_tools_read_first_candidate_only_witness :
  callTool
    (withAnswer (Sample.world (inl Scenario.quota))
       (inr (Response.make
               (Some [ Candidate.make (Some (Content.make (Some [])));
                       Candidate.make
                         (Some (Content.make (Some [Sample.jpeg]))) ])
               (inr ""))))
    (generate_image (Sample.generate "a cat" None None)) =
  callTool
    (withAnswer (Sample.world (inl Scenario.quota))
       (inr (Response.make
               (Some [Candidate.make (Some (Content.make (Some [])))])
               (inl Scenario.quota))))
    (generate_image (Sample.generate "a cat" None None)).
Proof.
  exact (image_tools_read_first_candidate_only
           (Sample.world (inl Scenario.quota))
           (generate_image (Sample.generate "a cat" None None))
           (Candidate.make (Some (Content.make (Some []))))
           [Candidate.make (Some (Content.make (Some [Sample.jpeg])))] []
           (inr "") (inl Scenario.quota) eq_refl).
Defined.

(** X13: [describe_image] makes the upstream invocation and nothing
    else: images in order, then the prompt, no generation configuration,
    no file access.  Its result is what [response.text()] returns, as a
    single text part, or the error result for what the call or
    [response.text()] threw; the candidates are not looked at, so a
    response without candidates succeeds when [response.text()] does. *)
Theorem describe_image_result (w : World) (p : DescribeImageParams.t) :
  let model := JS.default (DescribeImageParams.model p) MODELS.PRO in
  let parts :=
    (map toInlinePart (DescribeImageParams.images p)
     ++ [textPart (JS.default (DescribeImageParams.prompt p)
                              "Describe this image in detail.")])%list in
  callTool w (describe_image p) =
  ( [EvGenerateContent model None parts],
    match generateContent w model None parts with
    | inl e =>
        ToolResult.make [text ("Error: " ++ JS.message_of e)] (Some true)
    | inr response =>
        match Response.text response with
        | inl e =>
            ToolResult.make [text ("Error: " ++ JS.message_of e)] (Some true)
        | inr t => ToolResult.make [text t] None
        end
    end ).
Proof.
  intros model parts. rewrite callTool_pair. f_equal.
  - rewrite fst_callTool. now apply fst_dispatch_describe.
  - rewrite snd_callTool. simpl. unfold describeImage.
    rewrite snd_bind. simpl. fold model parts.
    destruct (generateContent w model None parts) as [e | response];
      [reflexivity|].
    now destruct (Response.text response).
Qed.

(** X14: image data that is the empty string counts as no image, and
    the last inline part decides: when the last inline part of the first
    candidate has empty data the call fails with the tool's "no image"
    message and writes nothing, even if an earlier inline part had data. *)
Theorem empty_image_data_is_no_image
    (w : World) (request : CallToolRequest) (ev : Event)
    (response : Response.t) (cparts : list Part.t) (i : InlineData.t) :
  image_tool request = true ->
  invocation request = Some ev ->
  answer w request = Some (inr response) ->
  snd (contentParts response) = inr cparts ->
  lastInline cparts = Some i ->
  InlineData.data i = "" ->
  callTool w request =
  ( [ev],
    ToolResult.make
      [ text ("Error: "
              ++ match request with
                 | generate_image _ =>
                     "No image generated. Model response: "
                     ++ concatAll (textParts cparts)
                 | _ => "No edited image generated"
                 end) ]
      (Some true) ).
Proof.
  intros Htool Hev Hans Hparts Hlast Hdata.
  rewrite callTool_pair. f_equal.
  - rewrite fst_callTool, (fst_dispatch_image w request ev Htool Hev).
    now rewrite Hans, Hparts, Hlast, Hdata.
  - rewrite snd_callTool, (snd_dispatch_image w request response Htool Hans).
    rewrite Hparts. unfold after_scan. rewrite Hlast, Hdata. simpl.
    destruct request; try discriminate; reflexivity.
Qed.

Lemma empty_image_data_is_no_image_witness :
  callTool
    (Sample.world
       (inr (Sample.respond
               [ Sample.inlinePart (Some "image/png") "AAAA";
                 Sample.textOnly "Second try failed.";
                 Sample.inlinePart (Some "image/png") "" ])))
    (generate_image (Sample.generate "a cat" (Some "/out/cat.png") None)) =
  ( [ EvGenerateContent MODELS.PRO
        (Some (generationConfig_generate MODELS.PRO AR_1_1 Size_1K))
        [textPart "a cat"] ],
    ToolResult.make
      [ text "Error: No image generated. Model response: Second try failed." ]
      (Some true) ).
Proof.
  exact (empty_image_data_is_no_image
           (Sample.world
              (inr (Sample.respond
                      [ Sample.inlinePart (Some "image/png") "AAAA";
                        Sample.textOnly "Second try failed.";
                        Sample.inlinePart (Some "image/png") "" ])))
           (generate_image
              (Sample.generate "a cat" (Some "/out/cat.png") None))
           _ _
           [ Sample.inlinePart (Some "image/png") "AAAA";
             Sample.textOnly "Second try failed.";
             Sample.inlinePart (Some "image/png") "" ]
           (InlineData.make (Some "image/png") "")
           eq_refl eq_refl eq_refl eq_refl eq_refl eq_refl).
Defined.

(** X15: when the first candidate has no [content], or its content has no
    [parts], both image tools fail with "No content in response" and make
    no call besides the upstream invocation.  An empty [parts] array is
    not that case: it passes the check and ends in the "no image" error. *)
Theorem no_content_in_response
    (w : World) (request : CallToolRequest) (ev : Event)
    (response : Response.t) (c : Candidate.t) (rest : list Candidate.t) :
  image_tool request = true ->
  invocation request = Some ev ->
  answer w request = Some (inr response) ->
  Response.candidates response = Some (c :: rest) ->
  (Candidate.content c = None
   -> callTool w request =
      ([ev], ToolResult.make [text "Error: No content in response"] (Some true)))
  /\ (forall ct, Candidate.content c = Some ct ->
        Content.parts ct = None ->
        callTool w request =
        ([ev], ToolResult.make [text "Error: No content in response"] (Some true)))
  /\ (forall ct, Candidate.content c = Some ct ->
        Content.parts ct = Some [] ->
        callTool w request =
        ([ev],
         ToolResult.make
           [ text match request with
                  | generate_image _ =>
                      "Error: No image generated. Model response: "
                  | _ => "Error: No edited image generated"
                  end ]
           (Some true))).
Proof.
  intros Htool Hev Hans Hcands.
  assert (Hrun : forall r : JS.Thrown + list Part.t,
             snd (contentParts response) = r ->
             callTool w request =
             ( ev :: match r with
                     | inr cparts =>
                         match lastInline cparts with
                         | Some i =>
                             if JS.truthy (InlineData.data i)
                             then fst (saveToFile w (outputPath_of request)
                                                  (InlineData.data i))
                             else []
                         | None => []
                         end
                     | inl _ => []
                     end,
               match r with
               | inl e => errorResult (JS.message_of e)
               | inr cparts =>
                   match after_scan w request cparts with
                   | inl e => errorResult (JS.message_of e)
                   | inr res => res
                   end
               end )).
  { intros r <-. rewrite callTool_pair. f_equal.
    - rewrite fst_callTool, (fst_dispatch_image w request ev Htool Hev).
      now rewrite Hans.
    - rewrite snd_callTool,
        (snd_dispatch_image w request response Htool Hans).
      now destruct (snd (contentParts response)). }
  split; [|split].
  - intros Hc. rewrite (Hrun (inl (JS.Error "No content in response")));
      [reflexivity|].
    unfold contentParts. now rewrite Hcands, Hc.
  - intros ct Hc Hp.
    rewrite (Hrun (inl (JS.Error "No content in response")));
      [reflexivity|].
    unfold contentParts. now rewrite Hcands, Hc, Hp.
  - intros ct Hc Hp. rewrite (Hrun (inr [])).
    + destruct request; try discriminate; reflexivity.
    + unfold contentParts. now rewrite Hcands, Hc, Hp.
Qed.

Lemma no_content_in_response_witness :
  callTool
    (Sample.world
       (inr (Response.make (Some [Candidate.make None]) (inr ""))))
    (edit_image (Sample.edit "make it blue" [Sample.img "a"] None)) =
  ( [ EvGenerateContent MODELS.PRO
        (Some (generationConfig_edit MODELS.PRO Size_1K))
        [inlineDataPart "image/png" "a"; textPart "make it blue"] ],
    ToolResult.make [text "Error: No content in response"] (Some true) ).
Proof.
  exact (proj1
    (no_content_in_response
       (Sample.world
          (inr (Response.make (Some [Candidate.make None]) (inr ""))))
       (edit_image (Sample.edit "make it blue" [Sample.img "a"] None))
       _ _ (Candidate.make None) []
       eq_refl eq_refl eq_refl eq_refl)
    eq_refl).
Defined.

(** X16: [generate_image] and [edit_image] extract the image in the same
    way: against the same upstream answer and with the same [outputPath],
    either both fail or both succeed, and then with the same image part. *)
Theorem generate_and_edit_return_same_image
    (w : World) (r : JS.Thrown + Response.t)
    (pg : GenerateImageParams.t) (pe : EditImageParams.t) :
  GenerateImageParams.outputPath pg = EditImageParams.outputPath pe ->
  images_of (snd (callTool (withAnswer w r) (generate_image pg))) =
  images_of (snd (callTool (withAnswer w r) (edit_image pe)))
  /\ ToolResult.isError (snd (callTool (withAnswer w r) (generate_image pg))) =
     ToolResult.isError (snd (callTool (withAnswer w r) (edit_image pe))).
Proof.
  intros Hout. rewrite !snd_callTool.
  pose proof (answer_withAnswer w (generate_image pg) _ r eq_refl) as Hg.
  pose proof (answer_withAnswer w (edit_image pe) _ r eq_refl) as He.
  destruct r as [e | response].
  - rewrite (snd_dispatch_thrown _ _ e Hg), (snd_dispatch_thrown _ _ e He).
    now split.
  - rewrite (snd_dispatch_image _ (generate_image pg) response eq_refl Hg).
    rewrite (snd_dispatch_image _ (edit_image pe) response eq_refl He).
    destruct (snd (contentParts response)) as [e | cparts]; [now split|].
    unfold after_scan.
    destruct (lastInline cparts) as [i|]; [|now split].
    destruct (JS.truthy (InlineData.data i)); [|now split].
    simpl outputPath_of. rewrite Hout.
    destruct (snd (saveToFile _ _ _)); now split.
Qed.

Lemma generate_and_edit_return_same_image_witness :
  images_of
    (snd (callTool
            (withAnswer (Sample.world (inl Scenario.quota))
                        (inr (Sample.respond [Sample.jpeg])))
            (generate_image (Sample.generate "a cat" None None)))) =
  images_of
    (snd (callTool
            (withAnswer (Sample.world (inl Scenario.quota))
                        (inr (Sample.respond [Sample.jpeg])))
            (edit_image (Sample.edit "make it blue" [Sample.img "a"] None)))).
Proof.
  exact (proj1
    (generate_and_edit_return_same_image
       (Sample.world (inl Scenario.quota))
       (inr (Sample.respond [Sample.jpeg]))
       (Sample.generate "a cat" None None)
       (Sample.edit "make it blue" [Sample.img "a"] None)
       eq_refl)).
Defined.

(** X17: the scan of [generateImage] over two runs of parts put one after
    the other: the text is the text of the first run followed by the text
    of the second; the image data and MIME type are those of the second
    run when it has an inline part, those of the first run otherwise. *)
Theorem scan_of_appended_parts (l1 l2 : list Part.t) :
  Scan.textResponse (scan (l1 ++ l2)) =
    Scan.textResponse (scan l1) ++ Scan.textResponse (scan l2)
  /\ Scan.imageData (scan (l1 ++ l2)) =
     match Scan.imageData (scan l2) with
     | Some d => Some d
     | None => Scan.imageData (scan l1)
     end
  /\ Scan.mimeType (scan (l1 ++ l2)) =
     match Scan.imageData (scan l2) with
     | Some _ => Scan.mimeType (scan l2)
     | None => Scan.mimeType (scan l1)
     end.
Proof.
  rewrite !scan_textResponse, !scan_imageData, !scan_mimeType.
  rewrite textParts_app, concatAll_app, lastInline_app.
  destruct (lastInline l2); repeat split.
Qed.
